(** * pc_assistant: the intent resolution and execution pipeline of [main.py]

    A shallow embedding of [src/main.py].  Every function of the module is
    translated to a Rocq function of the same name.  The operating system
    (search path, registry, process creation, command interpreter, the model
    service, the console) is a record of oracles, [Host]; each call to it is
    logged as an [Event], so that "which OS primitive was used, with which
    argument" is a statement about the trace of a run.

    A Python [str] is modelled by the [string] of its UTF-8 bytes;
    [str.lower] and [str.strip] are the Unicode ones.  The dictionaries
    handled by the program are finite maps from strings to strings, which is
    the shape of the intent (field values that are not strings are outside
    this model). *)

From Stdlib Require Import Ascii.
From stdpp Require Import gmap strings.

Local Open Scope Z_scope.

(** ** Text

    A Python [str] is modelled by the [string] of the bytes of its UTF-8
    encoding.  The functions of this section are those of the Python
    runtime that the program calls on its texts; [Unicode.lower] and the
    white space of [strip] follow the Unicode data of CPython 3.11
    (Unicode 14.0). *)

Module Unicode.

Definition byte (n : N) : ascii := ascii_of_N n.
Definition code (b : ascii) : N := N_of_ascii b.

(** A byte that is not part of a well-formed sequence is kept as it is; as
    a code point it is numbered above the Unicode range. *)
Definition stray (b : ascii) : N := (1114112 + (code b - 128))%N.

Definition is_cont (b : ascii) : bool :=
  ((128 <=? code b) && (code b <=? 191))%N.

Definition low6 (b : ascii) : N := (code b mod 64)%N.

(** The code points of a UTF-8 text. *)
Fixpoint decode (s : string) : list N :=
  match s with
  | EmptyString => []
  | String b0 s1 =>
      let n0 := code b0 in
      if (n0 <? 128)%N then n0 :: decode s1
      else
        match s1 with
        | EmptyString => [stray b0]
        | String b1 s2 =>
            if ((194 <=? n0) && (n0 <=? 223))%N && is_cont b1 then
              ((n0 - 192) * 64 + low6 b1)%N :: decode s2
            else
              match s2 with
              | EmptyString => stray b0 :: decode s1
              | String b2 s3 =>
                  let c3 := ((n0 - 224) * 4096 + low6 b1 * 64 + low6 b2)%N in
                  if ((224 <=? n0) && (n0 <=? 239))%N && is_cont b1 && is_cont b2
                     && (2048 <=? c3)%N
                     && negb ((55296 <=? c3) && (c3 <=? 57343))%N
                  then c3 :: decode s3
                  else
                    match s3 with
                    | EmptyString => stray b0 :: decode s1
                    | String b3 s4 =>
                        let c4 := ((n0 - 240) * 262144 + low6 b1 * 4096
                                   + low6 b2 * 64 + low6 b3)%N in
                        if ((240 <=? n0) && (n0 <=? 244))%N
                           && is_cont b1 && is_cont b2 && is_cont b3
                           && ((65536 <=? c4) && (c4 <=? 1114111))%N
                        then c4 :: decode s4
                        else stray b0 :: decode s1
                    end
              end
        end
  end.

(** The UTF-8 bytes of a code point. *)
Definition encode (c : N) : string :=
  (if c <? 128 then String (byte c) EmptyString
   else if c <? 2048 then
     String (byte (192 + c / 64)) (String (byte (128 + c mod 64)) EmptyString)
   else if c <? 65536 then
     String (byte (224 + c / 4096))
       (String (byte (128 + (c / 64) mod 64))
          (String (byte (128 + c mod 64)) EmptyString))
   else if c <? 1114112 then
     String (byte (240 + c / 262144))
       (String (byte (128 + (c / 4096) mod 64))
          (String (byte (128 + (c / 64) mod 64))
             (String (byte (128 + c mod 64)) EmptyString)))
   else String (byte (128 + (c - 1114112) mod 128)) EmptyString)%N.

Fixpoint encode_all (l : list N) : string :=
  match l with
  | [] => EmptyString
  | c :: l' => encode c +:+ encode_all l'
  end.

(** Simple lower-case mappings, as runs [(first, last, step, image of first)]:
    a code point [c] of a run, a multiple of [step] away from [first], is
    mapped to [image + (c - first)]. *)
Definition lower_runs : list (N * N * N * N) :=
  [
   (65, 90, 1, 97); (192, 214, 1, 224); (216, 222, 1, 248);
   (256, 302, 2, 257); (306, 310, 2, 307); (313, 327, 2, 314);
   (330, 374, 2, 331); (376, 376, 1, 255); (377, 381, 2, 378);
   (385, 385, 1, 595); (386, 388, 2, 387); (390, 390, 1, 596);
   (391, 391, 1, 392); (393, 394, 1, 598); (395, 395, 1, 396);
   (398, 398, 1, 477); (399, 399, 1, 601); (400, 400, 1, 603);
   (401, 401, 1, 402); (403, 403, 1, 608); (404, 404, 1, 611);
   (406, 406, 1, 617); (407, 407, 1, 616); (408, 408, 1, 409);
   (412, 412, 1, 623); (413, 413, 1, 626); (415, 415, 1, 629);
   (416, 420, 2, 417); (422, 422, 1, 640); (423, 423, 1, 424);
   (425, 425, 1, 643); (428, 428, 1, 429); (430, 430, 1, 648);
   (431, 431, 1, 432); (433, 434, 1, 650); (435, 437, 2, 436);
   (439, 439, 1, 658); (440, 440, 1, 441); (444, 444, 1, 445);
   (452, 452, 1, 454); (453, 453, 1, 454); (455, 455, 1, 457);
   (456, 456, 1, 457); (458, 458, 1, 460); (459, 475, 2, 460);
   (478, 494, 2, 479); (497, 497, 1, 499); (498, 500, 2, 499);
   (502, 502, 1, 405); (503, 503, 1, 447); (504, 542, 2, 505);
   (544, 544, 1, 414); (546, 562, 2, 547); (570, 570, 1, 11365);
   (571, 571, 1, 572); (573, 573, 1, 410); (574, 574, 1, 11366);
   (577, 577, 1, 578); (579, 579, 1, 384); (580, 580, 1, 649);
   (581, 581, 1, 652); (582, 590, 2, 583); (880, 882, 2, 881);
   (886, 886, 1, 887); (895, 895, 1, 1011); (902, 902, 1, 940);
   (904, 906, 1, 941); (908, 908, 1, 972); (910, 911, 1, 973);
   (913, 929, 1, 945); (931, 939, 1, 963); (975, 975, 1, 983);
   (984, 1006, 2, 985); (1012, 1012, 1, 952); (1015, 1015, 1, 1016);
   (1017, 1017, 1, 1010); (1018, 1018, 1, 1019); (1021, 1023, 1, 891);
   (1024, 1039, 1, 1104); (1040, 1071, 1, 1072); (1120, 1152, 2, 1121);
   (1162, 1214, 2, 1163); (1216, 1216, 1, 1231); (1217, 1229, 2, 1218);
   (1232, 1326, 2, 1233); (1329, 1366, 1, 1377); (4256, 4293, 1, 11520);
   (4295, 4295, 1, 11559); (4301, 4301, 1, 11565); (5024, 5103, 1, 43888);
   (5104, 5109, 1, 5112); (7312, 7354, 1, 4304); (7357, 7359, 1, 4349);
   (7680, 7828, 2, 7681); (7838, 7838, 1, 223); (7840, 7934, 2, 7841);
   (7944, 7951, 1, 7936); (7960, 7965, 1, 7952); (7976, 7983, 1, 7968);
   (7992, 7999, 1, 7984); (8008, 8013, 1, 8000); (8025, 8031, 2, 8017);
   (8040, 8047, 1, 8032); (8072, 8079, 1, 8064); (8088, 8095, 1, 8080);
   (8104, 8111, 1, 8096); (8120, 8121, 1, 8112); (8122, 8123, 1, 8048);
   (8124, 8124, 1, 8115); (8136, 8139, 1, 8050); (8140, 8140, 1, 8131);
   (8152, 8153, 1, 8144); (8154, 8155, 1, 8054); (8168, 8169, 1, 8160);
   (8170, 8171, 1, 8058); (8172, 8172, 1, 8165); (8184, 8185, 1, 8056);
   (8186, 8187, 1, 8060); (8188, 8188, 1, 8179); (8486, 8486, 1, 969);
   (8490, 8490, 1, 107); (8491, 8491, 1, 229); (8498, 8498, 1, 8526);
   (8544, 8559, 1, 8560); (8579, 8579, 1, 8580); (9398, 9423, 1, 9424);
   (11264, 11311, 1, 11312); (11360, 11360, 1, 11361);
   (11362, 11362, 1, 619); (11363, 11363, 1, 7549); (11364, 11364, 1, 637);
   (11367, 11371, 2, 11368); (11373, 11373, 1, 593); (11374, 11374, 1, 625);
   (11375, 11375, 1, 592); (11376, 11376, 1, 594); (11378, 11378, 1, 11379);
   (11381, 11381, 1, 11382); (11390, 11391, 1, 575);
   (11392, 11490, 2, 11393); (11499, 11501, 2, 11500);
   (11506, 11506, 1, 11507); (42560, 42604, 2, 42561);
   (42624, 42650, 2, 42625); (42786, 42798, 2, 42787);
   (42802, 42862, 2, 42803); (42873, 42875, 2, 42874);
   (42877, 42877, 1, 7545); (42878, 42886, 2, 42879);
   (42891, 42891, 1, 42892); (42893, 42893, 1, 613);
   (42896, 42898, 2, 42897); (42902, 42920, 2, 42903);
   (42922, 42922, 1, 614); (42923, 42923, 1, 604); (42924, 42924, 1, 609);
   (42925, 42925, 1, 620); (42926, 42926, 1, 618); (42928, 42928, 1, 670);
   (42929, 42929, 1, 647); (42930, 42930, 1, 669); (42931, 42931, 1, 43859);
   (42932, 42946, 2, 42933); (42948, 42948, 1, 42900);
   (42949, 42949, 1, 642); (42950, 42950, 1, 7566); (42951, 42953, 2, 42952);
   (42960, 42960, 1, 42961); (42966, 42968, 2, 42967);
   (42997, 42997, 1, 42998); (65313, 65338, 1, 65345);
   (66560, 66599, 1, 66600); (66736, 66771, 1, 66776);
   (66928, 66964, 2, 66967); (66929, 66938, 1, 66968);
   (66940, 66954, 1, 66979); (66956, 66962, 1, 66995);
   (66964, 66965, 1, 67003); (68736, 68786, 1, 68800);
   (71840, 71871, 1, 71872); (93760, 93791, 1, 93792);
   (125184, 125217, 1, 125218) ]%N.

(** Code points with the property Case_Ignorable. *)
Definition case_ignorable_ranges : list (N * N) :=
  [
   (39, 39); (46, 46); (58, 58); (94, 94); (96, 96); (168, 168); (173, 173);
   (175, 175); (180, 180); (183, 184); (688, 879); (884, 885); (890, 890);
   (900, 901); (903, 903); (1155, 1161); (1369, 1369); (1375, 1375);
   (1425, 1469); (1471, 1471); (1473, 1474); (1476, 1477); (1479, 1479);
   (1524, 1524); (1536, 1541); (1552, 1562); (1564, 1564); (1600, 1600);
   (1611, 1631); (1648, 1648); (1750, 1757); (1759, 1768); (1770, 1773);
   (1807, 1807); (1809, 1809); (1840, 1866); (1958, 1968); (2027, 2037);
   (2042, 2042); (2045, 2045); (2070, 2093); (2137, 2139); (2184, 2184);
   (2192, 2193); (2200, 2207); (2249, 2306); (2362, 2362); (2364, 2364);
   (2369, 2376); (2381, 2381); (2385, 2391); (2402, 2403); (2417, 2417);
   (2433, 2433); (2492, 2492); (2497, 2500); (2509, 2509); (2530, 2531);
   (2558, 2558); (2561, 2562); (2620, 2620); (2625, 2626); (2631, 2632);
   (2635, 2637); (2641, 2641); (2672, 2673); (2677, 2677); (2689, 2690);
   (2748, 2748); (2753, 2757); (2759, 2760); (2765, 2765); (2786, 2787);
   (2810, 2815); (2817, 2817); (2876, 2876); (2879, 2879); (2881, 2884);
   (2893, 2893); (2901, 2902); (2914, 2915); (2946, 2946); (3008, 3008);
   (3021, 3021); (3072, 3072); (3076, 3076); (3132, 3132); (3134, 3136);
   (3142, 3144); (3146, 3149); (3157, 3158); (3170, 3171); (3201, 3201);
   (3260, 3260); (3263, 3263); (3270, 3270); (3276, 3277); (3298, 3299);
   (3328, 3329); (3387, 3388); (3393, 3396); (3405, 3405); (3426, 3427);
   (3457, 3457); (3530, 3530); (3538, 3540); (3542, 3542); (3633, 3633);
   (3636, 3642); (3654, 3662); (3761, 3761); (3764, 3772); (3782, 3782);
   (3784, 3789); (3864, 3865); (3893, 3893); (3895, 3895); (3897, 3897);
   (3953, 3966); (3968, 3972); (3974, 3975); (3981, 3991); (3993, 4028);
   (4038, 4038); (4141, 4144); (4146, 4151); (4153, 4154); (4157, 4158);
   (4184, 4185); (4190, 4192); (4209, 4212); (4226, 4226); (4229, 4230);
   (4237, 4237); (4253, 4253); (4348, 4348); (4957, 4959); (5906, 5908);
   (5938, 5939); (5970, 5971); (6002, 6003); (6068, 6069); (6071, 6077);
   (6086, 6086); (6089, 6099); (6103, 6103); (6109, 6109); (6155, 6159);
   (6211, 6211); (6277, 6278); (6313, 6313); (6432, 6434); (6439, 6440);
   (6450, 6450); (6457, 6459); (6679, 6680); (6683, 6683); (6742, 6742);
   (6744, 6750); (6752, 6752); (6754, 6754); (6757, 6764); (6771, 6780);
   (6783, 6783); (6823, 6823); (6832, 6862); (6912, 6915); (6964, 6964);
   (6966, 6970); (6972, 6972); (6978, 6978); (7019, 7027); (7040, 7041);
   (7074, 7077); (7080, 7081); (7083, 7085); (7142, 7142); (7144, 7145);
   (7149, 7149); (7151, 7153); (7212, 7219); (7222, 7223); (7288, 7293);
   (7376, 7378); (7380, 7392); (7394, 7400); (7405, 7405); (7412, 7412);
   (7416, 7417); (7468, 7530); (7544, 7544); (7579, 7679); (8125, 8125);
   (8127, 8129); (8141, 8143); (8157, 8159); (8173, 8175); (8189, 8190);
   (8203, 8207); (8216, 8217); (8228, 8228); (8231, 8231); (8234, 8238);
   (8288, 8292); (8294, 8303); (8305, 8305); (8319, 8319); (8336, 8348);
   (8400, 8432); (11388, 11389); (11503, 11505); (11631, 11631);
   (11647, 11647); (11744, 11775); (11823, 11823); (12293, 12293);
   (12330, 12333); (12337, 12341); (12347, 12347); (12441, 12446);
   (12540, 12542); (40981, 40981); (42232, 42237); (42508, 42508);
   (42607, 42610); (42612, 42621); (42623, 42623); (42652, 42655);
   (42736, 42737); (42752, 42785); (42864, 42864); (42888, 42890);
   (42994, 42996); (43000, 43001); (43010, 43010); (43014, 43014);
   (43019, 43019); (43045, 43046); (43052, 43052); (43204, 43205);
   (43232, 43249); (43263, 43263); (43302, 43309); (43335, 43345);
   (43392, 43394); (43443, 43443); (43446, 43449); (43452, 43453);
   (43471, 43471); (43493, 43494); (43561, 43566); (43569, 43570);
   (43573, 43574); (43587, 43587); (43596, 43596); (43632, 43632);
   (43644, 43644); (43696, 43696); (43698, 43700); (43703, 43704);
   (43710, 43711); (43713, 43713); (43741, 43741); (43756, 43757);
   (43763, 43764); (43766, 43766); (43867, 43871); (43881, 43883);
   (44005, 44005); (44008, 44008); (44013, 44013); (64286, 64286);
   (64434, 64450); (65024, 65039); (65043, 65043); (65056, 65071);
   (65106, 65106); (65109, 65109); (65279, 65279); (65287, 65287);
   (65294, 65294); (65306, 65306); (65342, 65342); (65344, 65344);
   (65392, 65392); (65438, 65439); (65507, 65507); (65529, 65531);
   (66045, 66045); (66272, 66272); (66422, 66426); (67456, 67461);
   (67463, 67504); (67506, 67514); (68097, 68099); (68101, 68102);
   (68108, 68111); (68152, 68154); (68159, 68159); (68325, 68326);
   (68900, 68903); (69291, 69292); (69446, 69456); (69506, 69509);
   (69633, 69633); (69688, 69702); (69744, 69744); (69747, 69748);
   (69759, 69761); (69811, 69814); (69817, 69818); (69821, 69821);
   (69826, 69826); (69837, 69837); (69888, 69890); (69927, 69931);
   (69933, 69940); (70003, 70003); (70016, 70017); (70070, 70078);
   (70089, 70092); (70095, 70095); (70191, 70193); (70196, 70196);
   (70198, 70199); (70206, 70206); (70367, 70367); (70371, 70378);
   (70400, 70401); (70459, 70460); (70464, 70464); (70502, 70508);
   (70512, 70516); (70712, 70719); (70722, 70724); (70726, 70726);
   (70750, 70750); (70835, 70840); (70842, 70842); (70847, 70848);
   (70850, 70851); (71090, 71093); (71100, 71101); (71103, 71104);
   (71132, 71133); (71219, 71226); (71229, 71229); (71231, 71232);
   (71339, 71339); (71341, 71341); (71344, 71349); (71351, 71351);
   (71453, 71455); (71458, 71461); (71463, 71467); (71727, 71735);
   (71737, 71738); (71995, 71996); (71998, 71998); (72003, 72003);
   (72148, 72151); (72154, 72155); (72160, 72160); (72193, 72202);
   (72243, 72248); (72251, 72254); (72263, 72263); (72273, 72278);
   (72281, 72283); (72330, 72342); (72344, 72345); (72752, 72758);
   (72760, 72765); (72767, 72767); (72850, 72871); (72874, 72880);
   (72882, 72883); (72885, 72886); (73009, 73014); (73018, 73018);
   (73020, 73021); (73023, 73029); (73031, 73031); (73104, 73105);
   (73109, 73109); (73111, 73111); (73459, 73460); (78896, 78904);
   (92912, 92916); (92976, 92982); (92992, 92995); (94031, 94031);
   (94095, 94111); (94176, 94177); (94179, 94180); (110576, 110579);
   (110581, 110587); (110589, 110590); (113821, 113822); (113824, 113827);
   (118528, 118573); (118576, 118598); (119143, 119145); (119155, 119170);
   (119173, 119179); (119210, 119213); (119362, 119364); (121344, 121398);
   (121403, 121452); (121461, 121461); (121476, 121476); (121499, 121503);
   (121505, 121519); (122880, 122886); (122888, 122904); (122907, 122913);
   (122915, 122916); (122918, 122922); (123184, 123197); (123566, 123566);
   (123628, 123631); (125136, 125142); (125252, 125259); (127995, 127999);
   (917505, 917505); (917536, 917631); (917760, 917999) ]%N.

(** Code points with the property Cased that are not Case_Ignorable. *)
Definition cased_ranges : list (N * N) :=
  [
   (65, 90); (97, 122); (170, 170); (181, 181); (186, 186); (192, 214);
   (216, 246); (248, 442); (444, 447); (452, 659); (661, 687); (880, 883);
   (886, 887); (891, 893); (895, 895); (902, 902); (904, 906); (908, 908);
   (910, 929); (931, 1013); (1015, 1153); (1162, 1327); (1329, 1366);
   (1376, 1416); (4256, 4293); (4295, 4295); (4301, 4301); (4304, 4346);
   (4349, 4351); (5024, 5109); (5112, 5117); (7296, 7304); (7312, 7354);
   (7357, 7359); (7424, 7467); (7531, 7543); (7545, 7578); (7680, 7957);
   (7960, 7965); (7968, 8005); (8008, 8013); (8016, 8023); (8025, 8025);
   (8027, 8027); (8029, 8029); (8031, 8061); (8064, 8116); (8118, 8124);
   (8126, 8126); (8130, 8132); (8134, 8140); (8144, 8147); (8150, 8155);
   (8160, 8172); (8178, 8180); (8182, 8188); (8450, 8450); (8455, 8455);
   (8458, 8467); (8469, 8469); (8473, 8477); (8484, 8484); (8486, 8486);
   (8488, 8488); (8490, 8493); (8495, 8500); (8505, 8505); (8508, 8511);
   (8517, 8521); (8526, 8526); (8544, 8575); (8579, 8580); (9398, 9449);
   (11264, 11387); (11390, 11492); (11499, 11502); (11506, 11507);
   (11520, 11557); (11559, 11559); (11565, 11565); (42560, 42605);
   (42624, 42651); (42786, 42863); (42865, 42887); (42891, 42894);
   (42896, 42954); (42960, 42961); (42963, 42963); (42965, 42969);
   (42997, 42998); (43002, 43002); (43824, 43866); (43872, 43880);
   (43888, 43967); (64256, 64262); (64275, 64279); (65313, 65338);
   (65345, 65370); (66560, 66639); (66736, 66771); (66776, 66811);
   (66928, 66938); (66940, 66954); (66956, 66962); (66964, 66965);
   (66967, 66977); (66979, 66993); (66995, 67001); (67003, 67004);
   (68736, 68786); (68800, 68850); (71840, 71903); (93760, 93823);
   (119808, 119892); (119894, 119964); (119966, 119967); (119970, 119970);
   (119973, 119974); (119977, 119980); (119982, 119993); (119995, 119995);
   (119997, 120003); (120005, 120069); (120071, 120074); (120077, 120084);
   (120086, 120092); (120094, 120121); (120123, 120126); (120128, 120132);
   (120134, 120134); (120138, 120144); (120146, 120485); (120488, 120512);
   (120514, 120538); (120540, 120570); (120572, 120596); (120598, 120628);
   (120630, 120654); (120656, 120686); (120688, 120712); (120714, 120744);
   (120746, 120770); (120772, 120779); (122624, 122633); (122635, 122654);
   (125184, 125251); (127280, 127305); (127312, 127337); (127344, 127369) ]%N.

Definition in_run (c : N) (r : N * N * N * N) : bool :=
  let '(first, last, step, _) := r in
  ((first <=? c) && (c <=? last) && ((c - first) mod step =? 0))%N.

Definition in_ranges (c : N) (ranges : list (N * N)) : bool :=
  existsb (fun r => ((fst r <=? c) && (c <=? snd r))%N) ranges.

Definition case_ignorable (c : N) : bool := in_ranges c case_ignorable_ranges.
Definition cased (c : N) : bool := in_ranges c cased_ranges.

(** Lower case of one code point, out of context: the capital I with dot
    above gives two code points, the others at most one. *)
Definition lower_point (c : N) : list N :=
  if (c =? 304)%N then [105; 775]%N
  else
    match List.find (in_run c) lower_runs with
    | Some (first, _, _, image) => [(image + (c - first))%N]
    | None => [c]
    end.

(** Is the capital sigma before [rest] at the end of a word?  Nothing
    cased follows it, case-ignorable code points apart. *)
Fixpoint final_after (rest : list N) : bool :=
  match rest with
  | [] => true
  | c :: rest' =>
      if case_ignorable c then final_after rest' else negb (cased c)
  end.

(** [str.lower] on code points.  [before] tells whether the last code
    point read that is not case-ignorable is cased: a capital sigma then
    gives the final small sigma when it ends the word. *)
Fixpoint lower_points (before : bool) (l : list N) : list N :=
  match l with
  | [] => []
  | c :: rest =>
      (if (c =? 931)%N then
         [if before && final_after rest then 962%N else 963%N]
       else lower_point c)
      ++ lower_points (if case_ignorable c then before else cased c) rest
  end.

Definition lower (s : string) : string :=
  encode_all (lower_points false (decode s)).

(** The code points for which [str.isspace] holds. *)
Definition space_points : list N :=
  [9; 10; 11; 12; 13; 28; 29; 30; 31; 32; 133; 160; 5760;
   8192; 8193; 8194; 8195; 8196; 8197; 8198; 8199; 8200; 8201; 8202;
   8232; 8233; 8239; 8287; 12288]%N.

(** [drop_prefix p s] is what follows [p] in [s] when [s] starts with [p]. *)
Fixpoint drop_prefix (p s : string) : option string :=
  match p with
  | EmptyString => Some s
  | String a p' =>
      match s with
      | EmptyString => None
      | String b s' => if Ascii.eqb a b then drop_prefix p' s' else None
      end
  end.

Fixpoint first_some {A} (f : string -> option A) (l : list string) : option A :=
  match l with
  | [] => None
  | p :: l' =>
      match f p with
      | Some x => Some x
      | None => first_some f l'
      end
  end.

(** What follows the white-space character at the head of [s], if any. *)
Definition space_prefix (s : string) : option string :=
  first_some (fun p => drop_prefix p s) (map encode space_points).




End Unicode.

(** ** Strings *)

Module Str.

(** The double-quote character, the line feed and the backslash. *)
Definition dquote : string := String (ascii_of_nat 34) EmptyString.
Definition nl : string := String (ascii_of_nat 10) EmptyString.
Definition backslash : string := String (ascii_of_nat 92) EmptyString.




(** Is the text made of ASCII characters only? *)
Fixpoint is_ascii (s : string) : bool :=
  match s with
  | EmptyString => true
  | String c s' => ((nat_of_ascii c <? 128)%nat && is_ascii s')%bool
  end.

(** [s.lower()] *)
Definition lower (s : string) : string := Unicode.lower s.

(** Truth value of a string in a condition: [if s:]. *)
Definition truthy (s : string) : bool :=
  match s with
  | EmptyString => false
  | String _ _ => true
  end.

(** [s.startswith(p)] *)
Definition startswith (p s : string) : bool := String.prefix p s.

(** [sub in s] *)
Fixpoint contains (sub s : string) : bool :=
  if String.prefix sub s then true
  else match s with
       | EmptyString => false
       | String _ s' => contains sub s'
       end.

(** Leading white space is dropped one character at a time; a text has
    no more characters than bytes. *)
Fixpoint lstrip_from (fuel : nat) (s : string) : string :=
  match fuel with
  | O => s
  | S fuel' =>
      match Unicode.space_prefix s with
      | Some rest => lstrip_from fuel' rest
      | None => s
      end
  end.

Definition lstrip (s : string) : string := lstrip_from (String.length s) s.

(** Is the text made of white space only? *)
Fixpoint all_space_from (fuel : nat) (s : string) : bool :=
  match s with
  | EmptyString => true
  | String _ _ =>
      match fuel with
      | O => false
      | S fuel' =>
          match Unicode.space_prefix s with
          | Some rest => all_space_from fuel' rest
          | None => false
          end
      end
  end.

Definition all_space (s : string) : bool := all_space_from (String.length s) s.

Fixpoint rstrip (s : string) : string :=
  match s with
  | EmptyString => EmptyString
  | String c s' => if all_space s then EmptyString else String c (rstrip s')
  end.

(** [s.strip()] *)
Definition strip (s : string) : string := rstrip (lstrip s).


(** Occurrence of a character. *)
Fixpoint has_char (c : ascii) (s : string) : bool :=
  match s with
  | EmptyString => false
  | String d s' => if Ascii.eqb c d then true else has_char c s'
  end.

End Str.

(** [d.get(k, default)] on a dictionary. *)
Definition dict_get (d : gmap string string) (k default : string) : string :=
  match d !! k with
  | Some v => v
  | None => default
  end.

(** ** The host and the trace of a run *)

(** Outcome of [winreg.OpenKey] followed by [winreg.QueryValueEx(key, None)]. *)
Inductive RegOutcome : Type :=
| RegValue (program_path : string)
| RegFileNotFound
| RegRaised (msg : string).

(** Outcome of [subprocess.Popen(.., shell=True)] and of [os.startfile]. *)
Inductive StartOutcome : Type :=
| Started
| StartFileNotFound (msg : string)
| StartRaised (msg : string).

(** Outcome of [print]: writing to the console can raise, for instance when
    the console encoding has no character for part of the text. *)
Inductive PrintOutcome : Type :=
| Printed
| PrintRaised (msg : string).

(** Outcome of [subprocess.run] with captured output. *)
Inductive RunOutcome : Type :=
| Completed (returncode : Z) (stdout stderr : string)
| RunRaised (msg : string).

Record Host : Type := {
  sys_platform : string;
  shutil_which : string -> option string;
  winreg_query : string -> RegOutcome;
  subprocess_Popen : string -> StartOutcome;
  os_startfile : string -> StartOutcome;
  subprocess_run : string -> RunOutcome;
  ollama_run : string -> RunOutcome;
  builtin_print : string -> PrintOutcome
}.

Inductive Event : Type :=
| EvWhich (name : string)
| EvRegistry (key_path : string)
| EvPrint (text : string)
| EvPopen (command : string)
| EvStartfile (target : string)
| EvRun (command : string)
| EvModel (prompt : string).

(** Events that create a process on the machine. *)
Definition starts_process (e : Event) : bool :=
  match e with
  | EvPopen _ | EvStartfile _ | EvRun _ | EvModel _ => true
  | EvWhich _ | EvRegistry _ | EvPrint _ => false
  end.

(** Events of the installed-application registry strategy. *)
Definition is_registry (e : Event) : bool :=
  match e with
  | EvRegistry _ => true
  | _ => false
  end.

(** Events of the Program Resolver (either strategy). *)
Definition is_resolver (e : Event) : bool :=
  match e with
  | EvWhich _ | EvRegistry _ => true
  | _ => false
  end.

(** Computations that read the host and log their OS calls. *)
Definition Eff (A : Type) : Type := Host -> A * list Event.

Definition ret {A} (x : A) : Eff A := fun _ => (x, []).

Definition bind {A B} (m : Eff A) (k : A -> Eff B) : Eff B :=
  fun h => let '(x, t1) := m h in
           let '(y, t2) := k x h in
           (y, t1 ++ t2).

Notation "'let*' x ':=' m 'in' k" := (bind m (fun x => k))
  (at level 10, x name, m at level 100, k at level 200).

Definition value {A} (r : A * list Event) : A := fst r.
Definition trace {A} (r : A * list Event) : list Event := snd r.

Module OS.
Definition platform : Eff string := fun h => (sys_platform h, []).
Definition which (name : string) : Eff (option string) :=
  fun h => (shutil_which h name, [EvWhich name]).
Definition query_registry (key_path : string) : Eff RegOutcome :=
  fun h => (winreg_query h key_path, [EvRegistry key_path]).
(** [print] in [main], where no handler is around it: an exception there
    ends the program, and the runs described are those where the text is
    written. *)
Definition print (text : string) : Eff unit :=
  fun _ => (tt, [EvPrint text]).
(** [print] inside a [try]: the handler gets the outcome. *)
Definition try_print (text : string) : Eff PrintOutcome :=
  fun h => (builtin_print h text, [EvPrint text]).
Definition Popen (command : string) : Eff StartOutcome :=
  fun h => (subprocess_Popen h command, [EvPopen command]).
Definition startfile (target : string) : Eff StartOutcome :=
  fun h => (os_startfile h target, [EvStartfile target]).
Definition run (command : string) : Eff RunOutcome :=
  fun h => (subprocess_run h command, [EvRun command]).
Definition run_model (prompt : string) : Eff RunOutcome :=
  fun h => (ollama_run h prompt, [EvModel prompt]).
End OS.

(** ** Program Resolver *)

(** The table [office_programs] of [find_office_path]. *)
Definition office_programs : gmap string string :=
  list_to_map
    [ ("word", "WINWORD.EXE");
      ("excel", "EXCEL.EXE");
      ("powerpoint", "POWERPNT.EXE");
      ("outlook", "OUTLOOK.EXE");
      ("access", "MSACCESS.EXE");
      ("publisher", "MSPUB.EXE") ].

Definition app_paths : string :=
  "SOFTWARE\Microsoft\Windows\CurrentVersion\App Paths" +:+ Str.backslash.

(** [executable_name] and [key_path] as computed at lines 30 and 34. *)
Definition executable_name_of (program_name : string) : string :=
  dict_get office_programs (Str.lower program_name) program_name.

Definition key_path_of (program_name : string) : string :=
  app_paths +:+ executable_name_of program_name.

Definition find_office_path (program_name : string) : Eff string :=
  let key_path := key_path_of program_name in
  let* r := OS.query_registry key_path in
  match r with
  | RegValue program_path => ret program_path
  | RegFileNotFound =>
      ret ("Error: " +:+ program_name +:+ " not found in the registry.")
  | RegRaised e => ret ("Error while accessing registry: " +:+ e)
  end.

Definition find_program_path (program_name : string) : Eff (option string) :=
  let executable_name := Str.lower program_name in
  let* path := OS.which executable_name in
  match path with
  | Some p => if Str.truthy p then ret (Some p) else ret None
  | None => ret None
  end.

(** Lines 72-73 of [open_program]: the two strategies in order. *)
Definition resolve (program_name : string) : Eff string :=
  let* path := find_program_path program_name in
  match path with
  | Some p => if Str.truthy p then ret p else find_office_path program_name
  | None => find_office_path program_name
  end.

(** The value tested by [open_program] at line 74 counts as "absent" when it
    is false in a condition, as [None] and the empty string are. *)
Definition is_absence (path : string) : Prop := Str.truthy path = false.

Definition opened (program_name : string) : string :=
  "Program '" +:+ program_name +:+ "' opened successfully.".

Definition not_found (program_name : string) : string :=
  "Error: Program '" +:+ program_name +:+ "' not found.".

Definition open_program (program_name : string) : Eff string :=
  let* path := resolve program_name in
  if Str.truthy path then
    let* written := OS.try_print ("Path for " +:+ program_name +:+ ": " +:+ path) in
    match written with
    | PrintRaised e => ret ("Error while opening program: " +:+ e)
    | Printed =>
        let* r := OS.Popen (Str.dquote +:+ path +:+ Str.dquote) in
        match r with
        | Started => ret (opened program_name)
        | StartFileNotFound e | StartRaised e =>
            ret ("Error while opening program: " +:+ e)
        end
    end
  else
    let* r := OS.Popen program_name in
    match r with
    | Started =>
        let* r' := OS.startfile program_name in
        match r' with
        | Started => ret (opened program_name)
        | StartFileNotFound _ => ret (not_found program_name)
        | StartRaised e => ret ("Error while opening program: " +:+ e)
        end
    | StartFileNotFound _ => ret (not_found program_name)
    | StartRaised e => ret ("Error while opening program: " +:+ e)
    end.

(** ** Action Dispatcher *)

Definition construct_command (action : string) (details : gmap string string)
  : Eff string :=
  if String.eqb action "open_program" then
    let program := dict_get details "program" "" in
    if negb (Str.truthy program) then ret "Error: No program specified to open."
    else open_program program
  else if String.eqb action "list_directory" then
    let path := dict_get details "path" "." in
    let* platform := OS.platform in
    ret (if Str.startswith "win" platform then "dir " +:+ path
         else "ls " +:+ path)
  else if String.eqb action "show_path" then
    let* platform := OS.platform in
    ret (if Str.startswith "win" platform then "echo %cd%" else "pwd")
  else ret "Error: Unsupported action.".

(** ** Command Executor *)

Definition run_command (command : string) : Eff string :=
  if Str.startswith "Error" command then ret command
  else
    let* result := OS.run command in
    match result with
    | Completed returncode stdout stderr =>
        if returncode =? 0 then ret stdout else ret ("Error: " +:+ stderr)
    | RunRaised e => ret ("Error while executing command: " +:+ e)
    end.

(** ** Intent Parser *)

Module Re.

(** [re.search(r"\{.*\}", s, re.DOTALL)].  The search is leftmost: the
    match starts at the first opening brace that is followed by a closing
    one; [.*] is greedy and, with [DOTALL], crosses line ends, so the match
    runs to the last closing brace of the text.  A closing brace after some
    opening brace is also after the first opening brace, so only the first
    opening brace has to be tried. *)

Definition lbrace : ascii := ascii_of_nat 123.
Definition rbrace : ascii := ascii_of_nat 125.

Fixpoint from_first_open (s : string) : option string :=
  match s with
  | EmptyString => None
  | String c s' => if Ascii.eqb c lbrace then Some s else from_first_open s'
  end.

Fixpoint through_last_close (s : string) : option string :=
  match s with
  | EmptyString => None
  | String c s' =>
      match through_last_close s' with
      | Some r => Some (String c r)
      | None => if Ascii.eqb c rbrace then Some (String c EmptyString) else None
      end
  end.

Definition search_braces (s : string) : option string :=
  match from_first_open s with
  | Some t => through_last_close t
  | None => None
  end.

(** Texts without a brace. *)
Definition brace_free (w : string) : bool :=
  negb (Str.has_char lbrace w) && negb (Str.has_char rbrace w).

End Re.

Definition no_json : string := "Error: No valid JSON found in model output.".

(** Lines 143-149 of [query_model]: what is made of the model's standard
    output. *)
Definition extract_json (stdout : string) : string :=
  let raw_output := Str.strip stdout in
  match Re.search_braces raw_output with
  | Some m => m
  | None => no_json
  end.

Definition query_model (prompt : string) : Eff string :=
  let* result := OS.run_model prompt in
  match result with
  | Completed returncode stdout stderr =>
      if returncode =? 0 then ret (extract_json stdout)
      else ret ("Error from model: " +:+ stderr)
  | RunRaised e => ret ("Error while querying model: " +:+ e)
  end.

(** ** One request of the main loop *)

Section Main.

(** [json.loads], restricted to objects whose fields are strings; [None]
    stands for [json.JSONDecodeError]. *)
Variable json_loads : string -> option (gmap string string).

(** The fixed instructions sent to the model ahead of the request. *)
Variable system_prompt : string.

(** Lines 176-200: the body of the loop once the model has answered. *)
Definition main_body (model_output : string) : Eff unit :=
  let* _ := OS.print ("模型输出: " +:+ model_output) in
  if Str.contains "Error" model_output then OS.print model_output
  else
    match json_loads model_output with
    | None => OS.print "Error: Invalid JSON output from model."
    | Some data =>
        match data !! "action" with
        | None => OS.print "Error: No action provided by the model."
        | Some action =>
            if negb (Str.truthy action) then
              OS.print "Error: No action provided by the model."
            else
              let* command := construct_command action data in
              let* _ := OS.print ("生成的命令: " +:+ command) in
              if negb (String.eqb action "open_program") then
                let* result := run_command command in
                OS.print ("执行结果:" +:+ Str.nl +:+ " " +:+ result)
              else OS.print ("执行结果:" +:+ Str.nl +:+ " " +:+ command)
        end
    end.

(** Lines 168-175 followed by the body, for one line read by [input]:
    the result tells whether the loop goes on. *)
Definition main_request (line : string) : Eff bool :=
  let user_input := Str.strip line in
  let command_word := Str.lower user_input in
  if (String.eqb command_word "exit" || String.eqb command_word "quit")%bool then
    let* _ := OS.print "再见！" in
    ret false
  else
    let full_prompt := system_prompt +:+ Str.nl +:+ "用户请求: " +:+ user_input in
    let* _ := OS.print (Str.nl +:+ "正在查询模型...") in
    let* model_output := query_model full_prompt in
    let* _ := main_body model_output in
    ret true.

(** The loop of [main], on the lines typed by the user. *)
Fixpoint main_loop (lines : list string) : Eff unit :=
  match lines with
  | [] => ret tt
  | line :: lines' =>
      let* continue := main_request line in
      if continue then main_loop lines' else ret tt
  end.

Definition main (lines : list string) : Eff unit :=
  let* _ := OS.print "欢迎使用智能助手！输入您的请求，或输入 'exit' 退出程序。" in
  main_loop lines.

End Main.

(** ** Sample hosts *)

Module Samples.

(** Two well-formed payloads. *)
Definition show_path_payload : string :=
  "{" +:+ Str.dquote +:+ "action" +:+ Str.dquote +:+ ":"
      +:+ Str.dquote +:+ "show_path" +:+ Str.dquote +:+ "}".

Definition open_notepad_payload : string :=
  "{" +:+ Str.dquote +:+ "action" +:+ Str.dquote +:+ ":"
      +:+ Str.dquote +:+ "open_program" +:+ Str.dquote +:+ ","
      +:+ Str.dquote +:+ "program" +:+ Str.dquote +:+ ":"
      +:+ Str.dquote +:+ "Notepad" +:+ Str.dquote +:+ "}".

(** Answers of the model that wrap the first payload in commentary; the
    second one holds a stray closing brace. *)
Definition tidy_answer : string :=
  "Here you are: " +:+ show_path_payload +:+ " - anything else?" +:+ Str.nl.

Definition noisy_answer : string :=
  "Here you are: " +:+ show_path_payload +:+ " (done :})".

(** The deserializer on the sample payloads; every other text of the
    samples is rejected. *)
Definition sample_loads (text : string) : option (gmap string string) :=
  if String.eqb text show_path_payload then Some {["action" := "show_path"]}
  else if String.eqb text open_notepad_payload then
    Some (<["action" := "open_program"]> {["program" := "Notepad"]})
  else None.

(** A machine where nothing is installed under the requested name: the
    search path and the registry know nothing, the shell itself starts,
    and no file association exists. *)
Definition bare_host : Host :=
  {| sys_platform := "win32";
     shutil_which := fun _ => None;
     winreg_query := fun _ => RegFileNotFound;
     subprocess_Popen := fun _ => Started;
     os_startfile := fun _ => StartFileNotFound "[WinError 2]";
     subprocess_run := fun _ => Completed 1 "" "not recognized";
     ollama_run := fun _ => Completed 0 open_notepad_payload "";
     builtin_print := fun _ => Printed |}.

(** A Windows machine with [notepad] on the search path and Word
    registered under [App Paths]. *)
Definition office_host : Host :=
  {| sys_platform := "win32";
     shutil_which := fun name =>
       if String.eqb name "notepad" then Some "C:\Windows\notepad.exe"
       else None;
     winreg_query := fun key_path =>
       if String.eqb key_path (app_paths +:+ "WINWORD.EXE")
       then RegValue "C:\Office\WINWORD.EXE" else RegFileNotFound;
     subprocess_Popen := fun _ => Started;
     os_startfile := fun _ => Started;
     subprocess_run := fun command =>
       if String.eqb command "echo %cd%" then Completed 0 "C:\Users" ""
       else Completed 1 "" "File Not Found";
     ollama_run := fun _ => Completed 0 tidy_answer "";
     builtin_print := fun _ => Printed |}.

(** A host with a case-sensitive file system where the browser is
    installed under a capitalised file name. *)
Definition posix_host : Host :=
  {| sys_platform := "linux";
     shutil_which := fun name =>
       if String.eqb name "Firefox" then Some "/opt/bin/Firefox" else None;
     winreg_query := fun _ => RegRaised "registry unavailable";
     subprocess_Popen := fun _ => Started;
     os_startfile := fun _ => StartRaised "no startfile";
     subprocess_run := fun command =>
       if String.eqb command "pwd" then Completed 0 "/home/user" ""
       else Completed 2 "" "No such file or directory";
     ollama_run := fun _ => Completed 0 noisy_answer "";
     builtin_print := fun _ => Printed |}.

(** A machine whose registry has the key of the requested program with an
    empty default value, and an association for every name. *)
Definition blank_registry_host : Host :=
  {| sys_platform := "win32";
     shutil_which := fun _ => None;
     winreg_query := fun _ => RegValue "";
     subprocess_Popen := fun _ => Started;
     os_startfile := fun _ => Started;
     subprocess_run := fun _ => RunRaised "[WinError 5]";
     ollama_run := fun _ => Completed 1 "" "model not found";
     builtin_print := fun _ => Printed |}.

(** The listing intent of the end-to-end scenario, and a deserializer that
    knows it. *)
Definition listing_payload : string :=
  "{" +:+ Str.dquote +:+ "action" +:+ Str.dquote +:+ ":"
      +:+ Str.dquote +:+ "list_directory" +:+ Str.dquote +:+ ","
      +:+ Str.dquote +:+ "path" +:+ Str.dquote +:+ ":"
      +:+ Str.dquote +:+ "/tmp" +:+ Str.dquote +:+ "}".

Definition listing_loads (text : string) : option (gmap string string) :=
  if String.eqb text listing_payload then
    Some (<["action" := "list_directory"]> {["path" := "/tmp"]})
  else None.

(** The body of an intent that asks for a program whose name holds the
    error marker. *)
Definition error_lookup_body : string :=
  Str.dquote +:+ "action" +:+ Str.dquote +:+ ":"
    +:+ Str.dquote +:+ "open_program" +:+ Str.dquote +:+ ","
    +:+ Str.dquote +:+ "program" +:+ Str.dquote +:+ ":"
    +:+ Str.dquote +:+ "Error Lookup" +:+ Str.dquote.

(** The same registry, on a machine where starting a process raises
    "file not found". *)
Definition unlaunchable_host : Host :=
  {| sys_platform := "win32";
     shutil_which := fun _ => None;
     winreg_query := fun _ => RegValue "";
     subprocess_Popen := fun _ => StartFileNotFound "[WinError 2]";
     os_startfile := fun _ => Started;
     subprocess_run := fun _ => RunRaised "[WinError 2]";
     ollama_run := fun _ => RunRaised "[WinError 2]";
     builtin_print := fun _ => Printed |}.

(** The office machine behind a console whose encoding covers ASCII only:
    printing any other text raises. *)
Definition narrow_console_host : Host :=
  {| sys_platform := "win32";
     shutil_which := fun name =>
       if String.eqb name "café" then Some "C:\Tools\café.exe" else None;
     winreg_query := fun _ => RegFileNotFound;
     subprocess_Popen := fun _ => Started;
     os_startfile := fun _ => Started;
     subprocess_run := fun _ => Completed 0 "" "";
     ollama_run := fun _ => Completed 0 "" "";
     builtin_print := fun text =>
       if Str.is_ascii text then Printed
       else PrintRaised "'charmap' codec can't encode characters" |}.

End Samples.

(** ** Measures on runs *)

Definition is_model (e : Event) : bool :=
  match e with
  | EvModel _ => true
  | _ => false
  end.

Definition is_run (e : Event) : bool :=
  match e with
  | EvRun _ => true
  | _ => false
  end.

(** Events that the dispatcher can cause: those of the resolver, of
    [print] and of the two launch calls. *)
Definition dispatch_event (e : Event) : bool :=
  match e with
  | EvWhich _ | EvRegistry _ | EvPrint _ | EvPopen _ | EvStartfile _ => true
  | EvRun _ | EvModel _ => false
  end.

(** Number of calls to the model service in a run. *)
Definition model_queries (t : list Event) : nat := length (List.filter is_model t).

(** The test of line 169 on a line typed by the user. *)
Definition is_exit_word (line : string) : bool :=
  let command_word := Str.lower (Str.strip line) in
  (String.eqb command_word "exit" || String.eqb command_word "quit")%bool.

(** Number of lines typed before the first [exit] or [quit]. *)
Fixpoint requests_before_exit (lines : list string) : nat :=
  match lines with
  | [] => 0
  | line :: lines' =>
      if is_exit_word line then 0 else S (requests_before_exit lines')
  end.

(** * Properties *)

(** Unfolds the monad and the OS primitives of a run. *)
Ltac run_eff :=
  unfold value, trace, bind, ret, OS.which, OS.query_registry, OS.print,
    OS.try_print, OS.Popen, OS.startfile, OS.run, OS.run_model, OS.platform in *;
  simpl in *.

(** ** Facts about strings *)




















Lemma truthy_nonempty (s : string) : Str.truthy s = true <-> s <> "".
Proof. destruct s; simpl; split; congruence. Qed.

Lemma startswith_app (p s : string) : Str.startswith p (p +:+ s) = true.
Proof.
  unfold Str.startswith. induction p as [|c p IH]; simpl.
  - destruct s; reflexivity.
  - destruct (ascii_dec c c); [exact IH | congruence].
Qed.

(** ** The friendly-name table *)

Lemma office_programs_word : office_programs !! "word" = Some "WINWORD.EXE".
Proof. vm_compute. reflexivity. Qed.

Lemma executable_name_word (program_name : string) :
  Str.lower program_name = "word" -> executable_name_of program_name = "WINWORD.EXE".
Proof.
  intros H. unfold executable_name_of, dict_get.
  rewrite H, office_programs_word. reflexivity.
Qed.

(** ** Runs of the resolver *)

(** What strategy 1 returns, in terms of the search-path oracle. *)
Lemma find_program_path_run (h : Host) (program_name : string) :
  find_program_path program_name h =
    (match shutil_which h (Str.lower program_name) with
     | Some p => if Str.truthy p then Some p else None
     | None => None
     end, [EvWhich (Str.lower program_name)]).
Proof.
  unfold find_program_path. run_eff.
  destruct (shutil_which h (Str.lower program_name)) as [p|]; [|reflexivity].
  destruct (Str.truthy p); reflexivity.
Qed.

Lemma find_program_path_some (h : Host) (program_name p : string) :
  value (find_program_path program_name h) = Some p ->
  shutil_which h (Str.lower program_name) = Some p /\ Str.truthy p = true.
Proof.
  rewrite find_program_path_run. unfold value; simpl.
  destruct (shutil_which h (Str.lower program_name)) as [q|]; [|discriminate].
  destruct (Str.truthy q) eqn:Hq; [|discriminate].
  intros [= ->]. split; [reflexivity | exact Hq].
Qed.

Lemma find_office_path_trace (h : Host) (program_name : string) :
  trace (find_office_path program_name h) = [EvRegistry (key_path_of program_name)].
Proof.
  unfold find_office_path. run_eff.
  destruct (winreg_query h (key_path_of program_name)); reflexivity.
Qed.

(** When strategy 1 fails, the resolver is the registry strategy run after
    the search-path query. *)
Lemma resolve_after_miss (h : Host) (program_name : string) :
  value (find_program_path program_name h) = None ->
  resolve program_name h =
    (value (find_office_path program_name h),
     EvWhich (Str.lower program_name) :: trace (find_office_path program_name h)).
Proof.
  intros H. unfold resolve, bind.
  rewrite find_program_path_run in *. unfold value in H; simpl in H. rewrite H.
  destruct (find_office_path program_name h) as [v t]. reflexivity.
Qed.

(** The two shapes of a run of the resolver. *)
Lemma resolve_trace_cases (h : Host) (program_name : string) :
  (exists p, value (find_program_path program_name h) = Some p
             /\ trace (resolve program_name h) = [EvWhich (Str.lower program_name)])
  \/ (value (find_program_path program_name h) = None
      /\ trace (resolve program_name h)
         = [EvWhich (Str.lower program_name); EvRegistry (key_path_of program_name)]).
Proof.
  destruct (value (find_program_path program_name h)) as [p|] eqn:Hf.
  - left. exists p. split; [reflexivity|].
    apply find_program_path_some in Hf as [Hw Hp].
    unfold resolve, bind. rewrite find_program_path_run, Hw, Hp. rewrite Hp.
    reflexivity.
  - right. split; [reflexivity|].
    rewrite (resolve_after_miss h program_name Hf), find_office_path_trace.
    reflexivity.
Qed.

(** C4. When the executable-search strategy resolves the name, the resolver
    returns that search-path result after a single search-path query, and the
    run of [open_program] built on it holds no registry lookup: the first
    strategy that succeeds wins. *)
Theorem search_path_hit_wins (h : Host) (program_name p : string) :
  value (find_program_path program_name h) = Some p ->
  resolve program_name h = (p, [EvWhich (Str.lower program_name)])
  /\ existsb is_registry (trace (resolve program_name h)) = false
  /\ existsb is_registry (trace (open_program program_name h)) = false.
Proof.
  intros H. apply find_program_path_some in H as [Hw Hp].
  assert (Hr : resolve program_name h = (p, [EvWhich (Str.lower program_name)])).
  { unfold resolve, bind. rewrite find_program_path_run, Hw, Hp.
    rewrite Hp. reflexivity. }
  split; [exact Hr|]. split; [rewrite Hr; reflexivity|].
  unfold open_program, bind. rewrite Hr, Hp. run_eff.
  destruct (builtin_print h _); [destruct (subprocess_Popen h _)|]; reflexivity.
Qed.

Lemma search_path_hit_wins_witness :
  resolve "Notepad" Samples.office_host
    = ("C:\Windows\notepad.exe", [EvWhich (Str.lower "Notepad")])
  /\ existsb is_registry (trace (resolve "Notepad" Samples.office_host)) = false
  /\ existsb is_registry (trace (open_program "Notepad" Samples.office_host)) = false.
Proof.
  apply (search_path_hit_wins Samples.office_host "Notepad" "C:\Windows\notepad.exe").
  reflexivity.
Defined.

(** C9. Whatever the letter case of the input spelling of "word", once the
    search-path strategy has failed the registry strategy is queried with the
    key of the canonical executable name [WINWORD.EXE]: all casings lead to
    the same registry key. *)
Theorem word_registry_key (h : Host) (program_name : string) :
  Str.lower program_name = "word" ->
  value (find_program_path program_name h) = None ->
  executable_name_of program_name = "WINWORD.EXE"
  /\ trace (resolve program_name h) =
       [EvWhich "word";
        EvRegistry "SOFTWARE\Microsoft\Windows\CurrentVersion\App Paths\WINWORD.EXE"].
Proof.
  intros Hl Hmiss. split; [exact (executable_name_word _ Hl)|].
  rewrite (resolve_after_miss h program_name Hmiss). unfold trace at 1; simpl.
  rewrite find_office_path_trace, Hl. unfold key_path_of.
  rewrite (executable_name_word _ Hl). reflexivity.
Qed.

Lemma word_registry_key_witness :
  executable_name_of "WoRD" = "WINWORD.EXE"
  /\ trace (resolve "WoRD" Samples.bare_host) =
       [EvWhich "word";
        EvRegistry "SOFTWARE\Microsoft\Windows\CurrentVersion\App Paths\WINWORD.EXE"].
Proof.
  apply (word_registry_key Samples.bare_host "WoRD"); reflexivity.
Defined.



(** Lower case beyond ASCII: accented letters, the Kelvin sign, the final
    sigma and the capital I with dot above. *)
Example lower_beyond_ascii :
  Str.lower "CAFÉ" = "café"
  /\ Str.lower ("OUTLOO" +:+ Unicode.encode 8490) = "outlook"
  /\ Str.lower "ΟΔΥΣΣΕΥΣ" = "οδυσσευς"
  /\ Str.lower ("DIYARBAK" +:+ Unicode.encode 304 +:+ "R")
     = "diyarbaki" +:+ Unicode.encode 775 +:+ "r".
Proof. repeat split; vm_compute; reflexivity. Qed.

(** On a case-sensitive host an executable installed as [Firefox] is on the
    search path under that spelling, and strategy 1 still misses it. *)
Example capitalised_executable_is_missed :
  shutil_which Samples.posix_host "Firefox" = Some "/opt/bin/Firefox"
  /\ find_program_path "Firefox" Samples.posix_host = (None, [EvWhich "firefox"]).
Proof. split; reflexivity. Qed.

(** C8. An [open_program] intent whose [program] field is absent or empty
    is answered by the dispatcher with the "no program specified" error, and
    the run holds no event at all: the Program Resolver is not called. *)
Theorem open_program_without_program (h : Host) (details : gmap string string) :
  details !! "program" = None \/ details !! "program" = Some "" ->
  construct_command "open_program" details h
    = ("Error: No program specified to open.", [])
  /\ existsb is_resolver (trace (construct_command "open_program" details h)) = false.
Proof.
  intros H.
  assert (Hg : dict_get details "program" "" = "").
  { unfold dict_get. destruct H as [-> | ->]; reflexivity. }
  assert (Hc : construct_command "open_program" details h
               = ("Error: No program specified to open.", [])).
  { unfold construct_command. simpl. rewrite Hg. reflexivity. }
  rewrite Hc. split; reflexivity.
Qed.

Lemma open_program_without_program_witness :
  construct_command "open_program" ∅ Samples.office_host
    = ("Error: No program specified to open.", [])
  /\ existsb is_resolver
       (trace (construct_command "open_program" ∅ Samples.office_host)) = false.
Proof.
  apply (open_program_without_program Samples.office_host ∅).
  left. reflexivity.
Defined.

(** ** The registry strategy and the fall-back of [open_program] *)

(** C1, as the specification words it: a missing registry key gives an
    absence.  It fails: the strategy answers with a text that starts with the
    error marker and is true in a condition. *)
Lemma registry_absence_counterexample :
  ~ (forall (h : Host) (program_name : string),
       winreg_query h (key_path_of program_name) = RegFileNotFound ->
       is_absence (value (find_office_path program_name h))
       /\ Str.startswith "Error" (value (find_office_path program_name h)) = false).
Proof.
  intros H. specialize (H Samples.bare_host "Notepad" eq_refl) as [Habs _].
  vm_compute in Habs. discriminate.
Qed.

(** C1 (amended). For a name whose key is missing from the registry the
    registry strategy returns, after one registry query and without raising,
    the text [Error: <name> not found in the registry.], which is not empty;
    an unexpected registry failure is returned the same way, as the text
    [Error while accessing registry: <message>]. *)
Theorem registry_absence_is_a_message (h : Host) (program_name : string) :
  winreg_query h (key_path_of program_name) = RegFileNotFound ->
  find_office_path program_name h
    = ("Error: " +:+ program_name +:+ " not found in the registry.",
       [EvRegistry (key_path_of program_name)])
  /\ Str.truthy (value (find_office_path program_name h)) = true
  /\ Str.startswith "Error" (value (find_office_path program_name h)) = true
  /\ (forall (h' : Host) (msg : string),
        winreg_query h' (key_path_of program_name) = RegRaised msg ->
        find_office_path program_name h'
          = ("Error while accessing registry: " +:+ msg,
             [EvRegistry (key_path_of program_name)])).
Proof.
  intros H.
  assert (Hf : find_office_path program_name h
               = ("Error: " +:+ program_name +:+ " not found in the registry.",
                  [EvRegistry (key_path_of program_name)])).
  { unfold find_office_path. run_eff. rewrite H. reflexivity. }
  rewrite Hf. repeat split.
  intros h' msg H'. unfold find_office_path. run_eff. rewrite H'. reflexivity.
Qed.

Lemma registry_absence_is_a_message_witness :
  find_office_path "Notepad" Samples.bare_host
    = ("Error: " +:+ "Notepad" +:+ " not found in the registry.",
       [EvRegistry (key_path_of "Notepad")])
  /\ Str.truthy (value (find_office_path "Notepad" Samples.bare_host)) = true
  /\ Str.startswith "Error" (value (find_office_path "Notepad" Samples.bare_host)) = true
  /\ (forall (h' : Host) (msg : string),
        winreg_query h' (key_path_of "Notepad") = RegRaised msg ->
        find_office_path "Notepad" h'
          = ("Error while accessing registry: " +:+ msg,
             [EvRegistry (key_path_of "Notepad")])).
Proof.
  apply (registry_absence_is_a_message Samples.bare_host "Notepad").
  reflexivity.
Defined.

(** The text returned for a missing key is taken for a path: whenever
    strategy 1 misses and the key is missing, [open_program] prints and
    launches the quoted error text and never reaches its [else] branch. *)
Lemma unresolved_name_launches_message (h : Host) (program_name : string) :
  value (find_program_path program_name h) = None ->
  winreg_query h (key_path_of program_name) = RegFileNotFound ->
  let message := "Error: " +:+ program_name +:+ " not found in the registry." in
  builtin_print h ("Path for " +:+ program_name +:+ ": " +:+ message) = Printed ->
  trace (open_program program_name h)
    = [EvWhich (Str.lower program_name);
       EvRegistry (key_path_of program_name);
       EvPrint ("Path for " +:+ program_name +:+ ": " +:+ message);
       EvPopen (Str.dquote +:+ message +:+ Str.dquote)].
Proof.
  intros Hmiss Hreg message Hprint. unfold open_program, bind.
  rewrite (resolve_after_miss h program_name Hmiss).
  unfold find_office_path. run_eff. rewrite Hreg. simpl. fold message.
  rewrite Hprint. destruct (subprocess_Popen h _); reflexivity.
Qed.

(** The [else] branch of [open_program] (lines 81-90) is entered when the
    resolved path is false in a condition; that happens only when strategy 1
    misses and the registry holds an empty install path. *)
Lemma resolve_falsy_only_for_empty_value (h : Host) (program_name : string) :
  Str.truthy (value (resolve program_name h)) = false ->
  value (find_program_path program_name h) = None
  /\ winreg_query h (key_path_of program_name) = RegValue "".
Proof.
  unfold resolve, bind. rewrite find_program_path_run.
  unfold find_office_path. run_eff.
  destruct (shutil_which h (Str.lower program_name)) as [q|];
    [destruct (Str.truthy q) eqn:Hq; simpl; [rewrite Hq; simpl; congruence|]|];
    destruct (winreg_query h (key_path_of program_name)) as [v| |m]; simpl;
    try discriminate; destruct v; simpl; try discriminate; auto.
Qed.

(** C2. The specification has the raw name launched (direct invocation, then
    the open association) when both strategies fail, and "not found" reported
    when both launches fail.  On a host where the search path and the registry
    know nothing about [Notepad] and no association exists, the run of
    [open_program] never launches the raw name: it starts the quoted registry
    error text and reports success. *)
Theorem fallback_launch_of_raw_name_is_skipped :
  value (find_program_path "Notepad" Samples.bare_host) = None
  /\ winreg_query Samples.bare_host (key_path_of "Notepad") = RegFileNotFound
  /\ os_startfile Samples.bare_host "Notepad" = StartFileNotFound "[WinError 2]"
  /\ open_program "Notepad" Samples.bare_host
     = ("Program 'Notepad' opened successfully.",
        [EvWhich "notepad";
         EvRegistry "SOFTWARE\Microsoft\Windows\CurrentVersion\App Paths\Notepad";
         EvPrint "Path for Notepad: Error: Notepad not found in the registry.";
         EvPopen (Str.dquote +:+ "Error: Notepad not found in the registry."
                  +:+ Str.dquote)])
  /\ ~ In (EvPopen "Notepad") (trace (open_program "Notepad" Samples.bare_host))
  /\ ~ In (EvStartfile "Notepad") (trace (open_program "Notepad" Samples.bare_host)).
Proof.
  repeat split; try reflexivity.
  all: vm_compute; intros H; repeat destruct H as [H|H]; try discriminate H; exact H.
Qed.

(** ** The dispatcher *)

(** C3, as the specification words it: no run of the dispatcher starts a
    process.  It fails for [open_program] with a program name. *)
Lemma dispatcher_starts_process_counterexample :
  ~ (forall (h : Host) (action : string) (details : gmap string string),
       existsb starts_process (trace (construct_command action details h)) = false).
Proof.
  intros H.
  specialize (H Samples.office_host "open_program" {["program" := "notepad"]}).
  vm_compute in H. discriminate.
Qed.

(** A run of [open_program] either calls [Popen], or stops at the print
    of the resolved path, which raised: then nothing is started. *)
Lemma open_program_launch_cases (h : Host) (program_name : string) :
  (exists command, In (EvPopen command) (trace (open_program program_name h)))
  \/ (exists text e,
        In (EvPrint text) (trace (open_program program_name h))
        /\ builtin_print h text = PrintRaised e
        /\ value (open_program program_name h)
           = "Error while opening program: " +:+ e
        /\ existsb starts_process (trace (open_program program_name h)) = false).
Proof.
  pose proof (resolve_trace_cases h program_name) as Hc.
  unfold open_program, bind.
  destruct (resolve program_name h) as [path t]. unfold trace in Hc; simpl in Hc.
  assert (Ht : existsb starts_process t = false).
  { destruct Hc as [(p & _ & ->) | (_ & ->)]; reflexivity. }
  destruct (Str.truthy path); run_eff.
  - destruct (builtin_print h ("Path for " +:+ program_name +:+ ": " +:+ path))
      as [|e] eqn:Hprint.
    + left. exists (Str.dquote +:+ path +:+ Str.dquote).
      destruct (subprocess_Popen h _); simpl;
        apply in_or_app; right; simpl; auto.
    + right. exists ("Path for " +:+ program_name +:+ ": " +:+ path), e. simpl.
      split; [apply in_or_app; right; simpl; auto|].
      split; [exact Hprint|]. split; [reflexivity|].
      rewrite existsb_app, Ht. reflexivity.
  - left. exists program_name.
    destruct (subprocess_Popen h program_name); simpl;
      try destruct (os_startfile h program_name); simpl;
      apply in_or_app; right; simpl; auto.
Qed.

(** C3 (amended). For every intent other than [open_program] with a
    non-empty program, the dispatcher only produces a text and its run holds
    no event, so no process is started; for [open_program] with a non-empty
    program the dispatcher itself runs [open_program], whose run holds a
    [Popen] call, unless the print of the resolved path raised: in that case
    the error text is returned and nothing is started. *)
Theorem dispatcher_process_creation
    (h : Host) (action : string) (details : gmap string string) :
  (action <> "open_program" \/ dict_get details "program" "" = "" ->
   trace (construct_command action details h) = [])
  /\ (action = "open_program" -> dict_get details "program" "" <> "" ->
      (exists command,
         In (EvPopen command) (trace (construct_command action details h)))
      \/ (exists text e,
            In (EvPrint text) (trace (construct_command action details h))
            /\ builtin_print h text = PrintRaised e
            /\ value (construct_command action details h)
               = "Error while opening program: " +:+ e
            /\ existsb starts_process
                 (trace (construct_command action details h)) = false)).
Proof.
  split.
  - intros H. unfold construct_command.
    destruct (String.eqb action "open_program") eqn:Ha.
    + apply String.eqb_eq in Ha. destruct H as [H | H]; [congruence|].
      rewrite H. reflexivity.
    + destruct (String.eqb action "list_directory");
        [reflexivity|destruct (String.eqb action "show_path"); reflexivity].
  - intros -> Hp. unfold construct_command. simpl.
    apply truthy_nonempty in Hp. rewrite Hp. simpl.
    apply open_program_launch_cases.
Qed.

Lemma dispatcher_process_creation_witness :
  trace (construct_command "list_directory" {["path" := "C:\Users"]} Samples.office_host) = []
  /\ ((exists command,
         In (EvPopen command)
            (trace (construct_command "open_program" {["program" := "notepad"]}
                      Samples.office_host)))
      \/ (exists text e,
            In (EvPrint text)
               (trace (construct_command "open_program" {["program" := "notepad"]}
                         Samples.office_host))
            /\ builtin_print Samples.office_host text = PrintRaised e
            /\ value (construct_command "open_program" {["program" := "notepad"]}
                        Samples.office_host)
               = "Error while opening program: " +:+ e
            /\ existsb starts_process
                 (trace (construct_command "open_program" {["program" := "notepad"]}
                           Samples.office_host)) = false)).
Proof.
  split.
  - apply (dispatcher_process_creation Samples.office_host "list_directory"
             {["path" := "C:\Users"]}).
    left. discriminate.
  - apply (dispatcher_process_creation Samples.office_host "open_program"
             {["program" := "notepad"]}).
    + reflexivity.
    + vm_compute. discriminate.
Defined.

(** The two outcomes of the amended C3 on sample hosts: on the office
    machine the dispatcher starts Notepad; behind a console that cannot
    write the path, it starts nothing. *)
Example dispatcher_starts_notepad :
  construct_command "open_program" {["program" := "Notepad"]} Samples.office_host
  = ("Program 'Notepad' opened successfully.",
     [EvWhich "notepad";
      EvPrint "Path for Notepad: C:\Windows\notepad.exe";
      EvPopen (Str.dquote +:+ "C:\Windows\notepad.exe" +:+ Str.dquote)]).
Proof. vm_compute. reflexivity. Qed.

Example dispatcher_stops_at_print :
  construct_command "open_program" {["program" := "CAFÉ"]}
    Samples.narrow_console_host
  = ("Error while opening program: 'charmap' codec can't encode characters",
     [EvWhich "café"; EvPrint "Path for CAFÉ: C:\Tools\café.exe"]).
Proof. vm_compute. reflexivity. Qed.

(** ** The executor *)

(** C6. A command text that does not carry the error marker is run once
    through the command interpreter, with both output streams captured; exit
    status zero gives back exactly the captured standard output, and any
    other exit status gives back the error marker followed by the captured
    standard error, with nothing of the standard output. *)
Theorem run_command_captures
    (h : Host) (command : string) (returncode : Z) (stdout stderr : string) :
  Str.startswith "Error" command = false ->
  subprocess_run h command = Completed returncode stdout stderr ->
  trace (run_command command h) = [EvRun command]
  /\ (returncode = 0 -> value (run_command command h) = stdout)
  /\ (returncode <> 0 -> value (run_command command h) = "Error: " +:+ stderr).
Proof.
  intros Hm Hr. unfold run_command. rewrite Hm. run_eff. rewrite Hr.
  destruct (Z.eqb_spec returncode 0) as [-> | Hne]; simpl.
  - repeat split; congruence.
  - repeat split; congruence.
Qed.

Lemma run_command_captures_witness :
  (trace (run_command "echo %cd%" Samples.office_host) = [EvRun "echo %cd%"]
   /\ value (run_command "echo %cd%" Samples.office_host) = "C:\Users")
  /\ (trace (run_command "dir Z:" Samples.office_host) = [EvRun "dir Z:"]
      /\ value (run_command "dir Z:" Samples.office_host)
         = "Error: " +:+ "File Not Found").
Proof.
  split.
  - destruct (run_command_captures Samples.office_host "echo %cd%" 0 "C:\Users" ""
                eq_refl eq_refl) as (Ht & Hz & _).
    split; [exact Ht | apply Hz; reflexivity].
  - destruct (run_command_captures Samples.office_host "dir Z:" 1 "" "File Not Found"
                eq_refl eq_refl) as (Ht & _ & Hn).
    split; [exact Ht | apply Hn; discriminate].
Defined.

(** C7, as the specification words it: the commands built for
    [list_directory] and [show_path] never contain the error marker.  It
    fails for a directory whose name holds the marker. *)
Lemma shell_command_marker_counterexample :
  ~ (forall (h : Host) (action : string) (details : gmap string string),
       action = "list_directory" \/ action = "show_path" ->
       Str.contains "Error" (value (construct_command action details h)) = false).
Proof.
  intros H.
  specialize (H Samples.posix_host "list_directory" {["path" := "Error"]}
                (or_introl eq_refl)).
  vm_compute in H. discriminate.
Qed.

Lemma shell_command_not_marked
    (h : Host) (action : string) (details : gmap string string) :
  action = "list_directory" \/ action = "show_path" ->
  Str.startswith "Error" (value (construct_command action details h)) = false.
Proof.
  intros [-> | ->]; unfold construct_command; simpl; run_eff;
    destruct (Str.startswith "win" (sys_platform h)); reflexivity.
Qed.

(** C7 (amended). A text that starts with the error marker is returned by
    the executor unchanged and its run holds no event (the OS is not
    touched); the commands built for [list_directory] and [show_path] never
    start with the marker, so the executor always hands them to the command
    interpreter. *)
Theorem error_short_circuit
    (h : Host) (command action : string) (details : gmap string string) :
  Str.startswith "Error" command = true ->
  action = "list_directory" \/ action = "show_path" ->
  run_command command h = (command, [])
  /\ Str.startswith "Error" (value (construct_command action details h)) = false
  /\ trace (run_command (value (construct_command action details h)) h)
     = [EvRun (value (construct_command action details h))].
Proof.
  intros Hm Ha. split; [|split].
  - unfold run_command. rewrite Hm. reflexivity.
  - apply shell_command_not_marked, Ha.
  - unfold run_command.
    rewrite (shell_command_not_marked h action details Ha). run_eff.
    destruct (subprocess_run h _) as [rc out err|m]; [destruct (rc =? 0)|];
      reflexivity.
Qed.

Lemma error_short_circuit_witness :
  run_command "Error: Unsupported action." Samples.posix_host
    = ("Error: Unsupported action.", [])
  /\ Str.startswith "Error"
       (value (construct_command "list_directory" {["path" := "Error"]}
                 Samples.posix_host)) = false
  /\ trace (run_command
              (value (construct_command "list_directory" {["path" := "Error"]}
                        Samples.posix_host)) Samples.posix_host)
     = [EvRun (value (construct_command "list_directory" {["path" := "Error"]}
                        Samples.posix_host))].
Proof.
  apply (error_short_circuit Samples.posix_host "Error: Unsupported action."
           "list_directory" {["path" := "Error"]}).
  - reflexivity.
  - left. reflexivity.
Defined.

(** ** The parser *)

Lemma app_nil (b : string) : "" +:+ b = b.
Proof. reflexivity. Qed.

Lemma app_cons (x : ascii) (a b : string) : String x a +:+ b = String x (a +:+ b).
Proof. reflexivity. Qed.

Lemma append_assoc (a b c : string) : (a +:+ b) +:+ c = a +:+ (b +:+ c).
Proof.
  induction a as [|x a IH]; [reflexivity|].
  rewrite !app_cons, IH. reflexivity.
Qed.

Lemma has_char_cons (c d : ascii) (s : string) :
  Str.has_char c (String d s) = if Ascii.eqb d c then true else Str.has_char c s.
Proof. simpl. rewrite Ascii.eqb_sym. reflexivity. Qed.

(** *** The search finds what is between the first opening brace and the
    last closing brace *)

Lemma from_first_open_skip (pre rest : string) :
  Str.has_char Re.lbrace pre = false ->
  Re.from_first_open (pre +:+ String Re.lbrace rest) = Some (String Re.lbrace rest).
Proof.
  induction pre as [|c pre IH]; intros H.
  - reflexivity.
  - rewrite has_char_cons in H.
    destruct (Ascii.eqb c Re.lbrace) eqn:Hc; [discriminate|].
    rewrite app_cons. simpl Re.from_first_open. rewrite Hc. exact (IH H).
Qed.

Lemma through_last_close_none (post : string) :
  Str.has_char Re.rbrace post = false -> Re.through_last_close post = None.
Proof.
  induction post as [|c post IH]; intros H; [reflexivity|].
  rewrite has_char_cons in H. simpl.
  destruct (Ascii.eqb c Re.rbrace) eqn:Hc; [discriminate|].
  rewrite (IH H). reflexivity.
Qed.

Lemma through_last_close_stop (s post : string) :
  Str.has_char Re.rbrace post = false ->
  Re.through_last_close (s +:+ String Re.rbrace post)
    = Some (s +:+ String Re.rbrace EmptyString).
Proof.
  intros H. induction s as [|c s IH].
  - rewrite app_nil. simpl. rewrite (through_last_close_none post H). reflexivity.
  - rewrite !app_cons. simpl. rewrite IH. reflexivity.
Qed.

Lemma search_braces_found (pre body post : string) :
  Str.has_char Re.lbrace pre = false ->
  Str.has_char Re.rbrace post = false ->
  Re.search_braces (pre +:+ "{" +:+ body +:+ "}" +:+ post)
    = Some ("{" +:+ body +:+ "}").
Proof.
  intros Hpre Hpost. unfold Re.search_braces.
  change ("{" +:+ body +:+ "}" +:+ post)
    with (String Re.lbrace (body +:+ String Re.rbrace post)).
  rewrite (from_first_open_skip pre _ Hpre).
  change (String Re.lbrace (body +:+ String Re.rbrace post))
    with (String Re.lbrace body +:+ String Re.rbrace post).
  rewrite (through_last_close_stop _ post Hpost). reflexivity.
Qed.

(** *** A match is a brace-delimited part of the text *)

Lemma from_first_open_split (s t : string) :
  Re.from_first_open s = Some t ->
  exists a t', s = a +:+ "{" +:+ t' /\ t = "{" +:+ t'
               /\ Str.has_char Re.lbrace a = false.
Proof.
  induction s as [|c s IH]; simpl; [discriminate|].
  destruct (Ascii.eqb c Re.lbrace) eqn:Hc.
  - apply Ascii.eqb_eq in Hc as ->. intros [= <-]. exists "", s.
    repeat split; reflexivity.
  - intros H. destruct (IH H) as (a & t' & -> & -> & Ha).
    exists (String c a), t'. repeat split; try reflexivity.
    rewrite has_char_cons, Hc. exact Ha.
Qed.

Lemma through_last_close_none_inv (t : string) :
  Re.through_last_close t = None -> Str.has_char Re.rbrace t = false.
Proof.
  induction t as [|x t IH]; [reflexivity|].
  rewrite has_char_cons. simpl.
  destruct (Re.through_last_close t); [discriminate|].
  destruct (Ascii.eqb x Re.rbrace); [discriminate|]. intros _. exact (IH eq_refl).
Qed.

Lemma through_last_close_split (t r : string) :
  Re.through_last_close t = Some r ->
  exists r' c, r = r' +:+ "}" /\ t = r +:+ c
               /\ Str.has_char Re.rbrace c = false.
Proof.
  revert r. induction t as [|x t IH]; simpl; intros r; [discriminate|].
  destruct (Re.through_last_close t) as [r0|] eqn:Ht.
  - intros [= <-]. destruct (IH r0 eq_refl) as (r' & c & -> & -> & Hc).
    exists (String x r'), c. repeat split; try reflexivity. exact Hc.
  - destruct (Ascii.eqb_spec x Re.rbrace) as [-> | Hx]; [|discriminate].
    intros [= <-]. exists "", t. repeat split; try reflexivity.
    exact (through_last_close_none_inv t Ht).
Qed.

Lemma search_braces_split (s m : string) :
  Re.search_braces s = Some m ->
  exists a b c, s = a +:+ "{" +:+ b +:+ "}" +:+ c /\ m = "{" +:+ b +:+ "}"
                /\ Str.has_char Re.lbrace a = false
                /\ Str.has_char Re.rbrace c = false.
Proof.
  unfold Re.search_braces.
  destruct (Re.from_first_open s) as [t|] eqn:Ht; [|discriminate].
  destruct (from_first_open_split s t Ht) as (a & t' & -> & -> & Ha).
  change ("{" +:+ t') with (String Re.lbrace t'). simpl Re.through_last_close.
  destruct (Re.through_last_close t') as [r0|] eqn:Hr0; [|discriminate].
  intros [= <-].
  destruct (through_last_close_split t' r0 Hr0) as (b & c & -> & -> & Hc).
  exists a, b, c. repeat split; try assumption.
  rewrite append_assoc. reflexivity.
Qed.

(** The search is the leftmost, longest match of the pattern: the match
    is a brace-delimited part of the text with no opening brace before it
    and no closing brace after it. *)
Lemma search_braces_spec (s m : string) :
  Re.search_braces s = Some m <->
  exists a b c, s = a +:+ "{" +:+ b +:+ "}" +:+ c /\ m = "{" +:+ b +:+ "}"
                /\ Str.has_char Re.lbrace a = false
                /\ Str.has_char Re.rbrace c = false.
Proof.
  split; [apply search_braces_split|].
  intros (a & b & c & -> & -> & Ha & Hc). exact (search_braces_found a b c Ha Hc).
Qed.

(** *** The search finds a match whenever the text has a brace-delimited
    part *)

Lemma from_first_open_suffix (a r t : string) :
  Re.from_first_open (a +:+ String Re.lbrace r) = Some t ->
  exists x, t = x +:+ String Re.lbrace r.
Proof.
  induction a as [|c a IH].
  - rewrite app_nil. simpl. intros [= <-]. exists "". reflexivity.
  - rewrite app_cons. simpl Re.from_first_open.
    destruct (Ascii.eqb c Re.lbrace).
    + intros [= <-]. exists (String c a). reflexivity.
    + exact IH.
Qed.

Lemma from_first_open_some (a r : string) :
  Re.from_first_open (a +:+ String Re.lbrace r) <> None.
Proof.
  induction a as [|c a IH].
  - rewrite app_nil. simpl. discriminate.
  - rewrite app_cons. simpl Re.from_first_open.
    destruct (Ascii.eqb c Re.lbrace); [discriminate | exact IH].
Qed.

Lemma through_last_close_some (x c : string) :
  Re.through_last_close (x +:+ String Re.rbrace c) <> None.
Proof.
  induction x as [|d x IH].
  - rewrite app_nil. simpl. destruct (Re.through_last_close c); discriminate.
  - rewrite app_cons. simpl.
    destruct (Re.through_last_close (x +:+ String Re.rbrace c));
      [discriminate | contradiction].
Qed.

Lemma search_braces_complete (a b c : string) :
  Re.search_braces (a +:+ "{" +:+ b +:+ "}" +:+ c) <> None.
Proof.
  unfold Re.search_braces.
  change ("{" +:+ b +:+ "}" +:+ c) with (String Re.lbrace (b +:+ String Re.rbrace c)).
  destruct (Re.from_first_open (a +:+ String Re.lbrace (b +:+ String Re.rbrace c)))
    as [t|] eqn:Ht; [|destruct (from_first_open_some _ _ Ht)].
  destruct (from_first_open_suffix _ _ _ Ht) as [x ->].
  change (x +:+ String Re.lbrace (b +:+ String Re.rbrace c))
    with (x +:+ (String Re.lbrace b +:+ String Re.rbrace c)).
  rewrite <- append_assoc. apply through_last_close_some.
Qed.

(** *** [strip] does not change the match *)

Lemma has_char_append (c : ascii) (a b : string) :
  Str.has_char c (a +:+ b) = (Str.has_char c a || Str.has_char c b)%bool.
Proof.
  induction a as [|x a IH]; [reflexivity|].
  rewrite app_cons, !has_char_cons, IH. destruct (Ascii.eqb x c); reflexivity.
Qed.

Lemma brace_free_append (a b : string) :
  Re.brace_free a = true -> Re.brace_free b = true ->
  Re.brace_free (a +:+ b) = true.
Proof.
  unfold Re.brace_free. rewrite !has_char_append.
  destruct (Str.has_char Re.lbrace a), (Str.has_char Re.rbrace a); try discriminate.
  intros _ H. exact H.
Qed.

Lemma brace_free_chars (w : string) :
  Re.brace_free w = true ->
  Str.has_char Re.lbrace w = false /\ Str.has_char Re.rbrace w = false.
Proof.
  unfold Re.brace_free.
  destruct (Str.has_char Re.lbrace w), (Str.has_char Re.rbrace w);
    try discriminate; split; reflexivity.
Qed.

Lemma drop_prefix_frame (p s rest : string) :
  Unicode.drop_prefix p s = Some rest -> s = p +:+ rest.
Proof.
  revert s. induction p as [|a p IH]; intros s; simpl.
  - intros [= ->]. reflexivity.
  - destruct s as [|b s]; [discriminate|].
    destruct (Ascii.eqb_spec a b) as [-> | _]; [|discriminate].
    intros H. rewrite app_cons, <- (IH s H). reflexivity.
Qed.

Lemma space_codes_brace_free :
  forallb Re.brace_free (map Unicode.encode Unicode.space_points) = true.
Proof. vm_compute. reflexivity. Qed.

(** A white-space character is a brace-free prefix. *)
Lemma space_prefix_frame (s rest : string) :
  Unicode.space_prefix s = Some rest ->
  exists w, s = w +:+ rest /\ Re.brace_free w = true.
Proof.
  unfold Unicode.space_prefix. pose proof space_codes_brace_free as Hall.
  induction (map Unicode.encode Unicode.space_points) as [|p l IH]; simpl;
    [discriminate|].
  simpl in Hall. apply andb_true_iff in Hall as [Hp Hl].
  destruct (Unicode.drop_prefix p s) as [r|] eqn:Hd.
  - intros [= <-]. exists p. split; [apply drop_prefix_frame, Hd | exact Hp].
  - apply IH, Hl.
Qed.

Lemma lstrip_frame (s : string) :
  exists l, s = l +:+ Str.lstrip s /\ Re.brace_free l = true.
Proof.
  unfold Str.lstrip. generalize (String.length s) as fuel. intros fuel.
  revert s. induction fuel as [|fuel IH]; intros s; simpl.
  - exists "". split; reflexivity.
  - destruct (Unicode.space_prefix s) as [rest|] eqn:Hp.
    + destruct (space_prefix_frame s rest Hp) as (w & -> & Hw).
      destruct (IH rest) as (l & Hl & Hb).
      exists (w +:+ l). split; [|apply brace_free_append; assumption].
      rewrite append_assoc, <- Hl. reflexivity.
    + exists "". split; reflexivity.
Qed.

Lemma all_space_brace_free (fuel : nat) (s : string) :
  Str.all_space_from fuel s = true -> Re.brace_free s = true.
Proof.
  revert s. induction fuel as [|fuel IH]; intros s.
  - destruct s; [reflexivity | discriminate].
  - destruct s as [|c s]; [reflexivity|]. simpl.
    destruct (Unicode.space_prefix (String c s)) as [rest|] eqn:Hp; [|discriminate].
    intros H. destruct (space_prefix_frame _ rest Hp) as (w & -> & Hw).
    apply brace_free_append; [exact Hw | apply IH, H].
Qed.

Lemma rstrip_frame (s : string) :
  exists r, s = Str.rstrip s +:+ r /\ Re.brace_free r = true.
Proof.
  induction s as [|c s IH].
  - exists "". split; reflexivity.
  - simpl Str.rstrip. destruct (Str.all_space (String c s)) eqn:Ha.
    + exists (String c s). split; [reflexivity|].
      exact (all_space_brace_free _ _ Ha).
    + destruct IH as (r & Hr & Hb). exists r. split; [|exact Hb].
      rewrite app_cons, <- Hr. reflexivity.
Qed.

Lemma strip_frame (s : string) :
  exists l r, s = l +:+ Str.strip s +:+ r
              /\ Re.brace_free l = true /\ Re.brace_free r = true.
Proof.
  destruct (lstrip_frame s) as (l & Hl & Hbl).
  destruct (rstrip_frame (Str.lstrip s)) as (r & Hr & Hbr).
  exists l, r. unfold Str.strip. rewrite <- Hr, <- Hl. auto.
Qed.

Lemma from_first_open_none (r : string) :
  Str.has_char Re.lbrace r = false -> Re.from_first_open r = None.
Proof.
  induction r as [|c r IH]; intros H; [reflexivity|].
  rewrite has_char_cons in H. simpl.
  destruct (Ascii.eqb c Re.lbrace); [discriminate | exact (IH H)].
Qed.

Lemma from_first_open_app_l (l x : string) :
  Str.has_char Re.lbrace l = false ->
  Re.from_first_open (l +:+ x) = Re.from_first_open x.
Proof.
  induction l as [|c l IH]; intros H; [reflexivity|].
  rewrite has_char_cons in H. rewrite app_cons. simpl Re.from_first_open.
  destruct (Ascii.eqb c Re.lbrace); [discriminate | exact (IH H)].
Qed.

Lemma from_first_open_app_r (x r : string) :
  Str.has_char Re.lbrace r = false ->
  Re.from_first_open (x +:+ r) = (fun t => t +:+ r) <$> Re.from_first_open x.
Proof.
  intros H. induction x as [|c x IH].
  - rewrite app_nil. exact (from_first_open_none r H).
  - rewrite app_cons. simpl Re.from_first_open.
    destruct (Ascii.eqb c Re.lbrace); [reflexivity | exact IH].
Qed.

Lemma through_last_close_app_r (t r : string) :
  Str.has_char Re.rbrace r = false ->
  Re.through_last_close (t +:+ r) = Re.through_last_close t.
Proof.
  intros H. induction t as [|c t IH].
  - rewrite app_nil. exact (through_last_close_none r H).
  - rewrite app_cons. simpl. rewrite IH. reflexivity.
Qed.

Lemma search_braces_frame (l x r : string) :
  Re.brace_free l = true -> Re.brace_free r = true ->
  Re.search_braces (l +:+ x +:+ r) = Re.search_braces x.
Proof.
  intros Hl Hr. apply brace_free_chars in Hl as [Hl _].
  apply brace_free_chars in Hr as [Hro Hrc].
  unfold Re.search_braces.
  rewrite (from_first_open_app_l l _ Hl), (from_first_open_app_r x r Hro).
  destruct (Re.from_first_open x) as [t|]; simpl; [|reflexivity].
  apply through_last_close_app_r, Hrc.
Qed.

Lemma search_braces_strip (s : string) :
  Re.search_braces (Str.strip s) = Re.search_braces s.
Proof.
  destruct (strip_frame s) as (l & r & Hs & Hl & Hr).
  rewrite Hs at 2. symmetry. apply search_braces_frame; assumption.
Qed.

Lemma has_char_app (c : ascii) (a r : string) :
  Str.has_char c (a +:+ String c r) = true.
Proof.
  induction a as [|x a IH].
  - rewrite app_nil, has_char_cons, Ascii.eqb_refl. reflexivity.
  - rewrite app_cons, has_char_cons, IH. destruct (Ascii.eqb x c); reflexivity.
Qed.

(** A text with no opening brace holds no brace-delimited part. *)
Lemma no_open_no_payload (s : string) :
  Str.has_char Re.lbrace s = false ->
  forall a b c, s <> a +:+ "{" +:+ b +:+ "}" +:+ c.
Proof.
  intros H a b c ->.
  change ("{" +:+ b +:+ "}" +:+ c) with (String Re.lbrace (b +:+ "}" +:+ c)) in H.
  rewrite has_char_app in H. discriminate.
Qed.

Lemma extract_json_no_payload (raw : string) :
  (forall a b c, raw <> a +:+ "{" +:+ b +:+ "}" +:+ c) ->
  extract_json raw = no_json.
Proof.
  intros H. unfold extract_json. rewrite search_braces_strip.
  destruct (Re.search_braces raw) as [m|] eqn:Hm; [|reflexivity].
  destruct (search_braces_split raw m Hm) as (a & b & c & Hs & _).
  destruct (H a b c Hs).
Qed.

(** Once a payload that does not hold the error marker is deserialized and
    names an action, the dispatcher is run on the deserialized fields. *)
Lemma main_body_dispatches
    (json_loads : string -> option (gmap string string)) (h : Host)
    (payload action : string) (data : gmap string string) :
  Str.contains "Error" payload = false ->
  json_loads payload = Some data ->
  data !! "action" = Some action ->
  Str.truthy action = true ->
  exists rest,
    trace (main_body json_loads payload h)
    = EvPrint ("模型输出: " +:+ payload)
        :: trace (construct_command action data h) ++ rest.
Proof.
  intros He Hl Ha Ht. unfold main_body, bind. run_eff.
  rewrite He, Hl, Ha, Ht. simpl.
  destruct (construct_command action data h) as [command t]. simpl.
  destruct (negb (String.eqb action "open_program")).
  - destruct (run_command command h) as [result t']. simpl. eauto.
  - simpl. eauto.
Qed.

(** C5, as the specification words it, on an answer that holds exactly one
    well-formed payload: a closing brace in the trailing commentary is taken
    into the extracted text, which is then not the payload. *)
Lemma noisy_answer_counterexample :
  Samples.noisy_answer
    = "Here you are: " +:+ Samples.show_path_payload +:+ " (done :})"
  /\ extract_json Samples.noisy_answer = Samples.show_path_payload +:+ " (done :}"
  /\ extract_json Samples.noisy_answer <> Samples.show_path_payload.
Proof.
  split; [reflexivity|]. split; [vm_compute; reflexivity|].
  vm_compute. discriminate.
Qed.

(** C5 (amended). When the commentary before the payload holds no opening
    brace and the commentary after it holds no closing brace, the text
    extracted from the model's answer is exactly the payload, and the request
    goes on as it would on the payload alone: unless the payload holds the
    error marker, it is deserialized and its fields are dispatched.  When no
    opening brace of the answer is followed by a closing brace, extraction
    gives the "no valid JSON" diagnostic and the request ends by printing
    it. *)
Theorem extraction_between_braces
    (json_loads : string -> option (gmap string string)) (h : Host)
    (pre body post plain : string) :
  Str.has_char Re.lbrace pre = false ->
  Str.has_char Re.rbrace post = false ->
  (forall a b c, plain <> a +:+ "{" +:+ b +:+ "}" +:+ c) ->
  extract_json (pre +:+ "{" +:+ body +:+ "}" +:+ post) = "{" +:+ body +:+ "}"
  /\ (forall action data,
        Str.contains "Error" ("{" +:+ body +:+ "}") = false ->
        json_loads ("{" +:+ body +:+ "}") = Some data ->
        data !! "action" = Some action ->
        Str.truthy action = true ->
        exists rest,
          trace (main_body json_loads
                   (extract_json (pre +:+ "{" +:+ body +:+ "}" +:+ post)) h)
          = EvPrint ("模型输出: " +:+ "{" +:+ body +:+ "}")
              :: trace (construct_command action data h) ++ rest)
  /\ extract_json plain = no_json
  /\ main_body json_loads (extract_json plain) h
     = (tt, [EvPrint ("模型输出: " +:+ no_json); EvPrint no_json]).
Proof.
  intros Hpre Hpost Hplain.
  assert (Hx : extract_json (pre +:+ "{" +:+ body +:+ "}" +:+ post)
               = "{" +:+ body +:+ "}").
  { unfold extract_json. rewrite search_braces_strip.
    rewrite (search_braces_found pre body post Hpre Hpost). reflexivity. }
  split; [exact Hx|]. split; [|split].
  - intros action data He Hl Ha Ht. rewrite Hx.
    exact (main_body_dispatches json_loads h _ action data He Hl Ha Ht).
  - exact (extract_json_no_payload plain Hplain).
  - rewrite (extract_json_no_payload plain Hplain). reflexivity.
Qed.

Lemma extraction_between_braces_witness :
  extract_json Samples.tidy_answer = Samples.show_path_payload
  /\ (exists rest,
        trace (main_body Samples.sample_loads (extract_json Samples.tidy_answer)
                 Samples.office_host)
        = EvPrint ("模型输出: " +:+ Samples.show_path_payload)
            :: trace (construct_command "show_path" {["action" := "show_path"]}
                        Samples.office_host) ++ rest)
  /\ extract_json "I cannot help with that." = no_json
  /\ main_body Samples.sample_loads (extract_json "I cannot help with that.")
       Samples.office_host
     = (tt, [EvPrint ("模型输出: " +:+ no_json); EvPrint no_json]).
Proof.
  destruct (extraction_between_braces Samples.sample_loads Samples.office_host
              "Here you are: "
              (Str.dquote +:+ "action" +:+ Str.dquote +:+ ":"
                 +:+ Str.dquote +:+ "show_path" +:+ Str.dquote)
              (" - anything else?" +:+ Str.nl)
              "I cannot help with that."
              eq_refl eq_refl
              (no_open_no_payload "I cannot help with that." eq_refl))
    as (Hx & Hd & Hn & Hm).
  split; [exact Hx|]. split; [|split; [exact Hn | exact Hm]].
  apply (Hd "show_path" {["action" := "show_path"]}); reflexivity.
Defined.

(** ** Whole requests *)

(** A request answered with a payload inside tidy commentary: the payload
    is extracted, dispatched to [echo %cd%] and run by the executor. *)
Example request_show_path :
  trace (main Samples.sample_loads "" ["  where am I? "; "EXIT"] Samples.office_host)
  = [EvPrint "欢迎使用智能助手！输入您的请求，或输入 'exit' 退出程序。";
     EvPrint (Str.nl +:+ "正在查询模型...");
     EvModel (Str.nl +:+ "用户请求: where am I?");
     EvPrint ("模型输出: " +:+ Samples.show_path_payload);
     EvPrint "生成的命令: echo %cd%";
     EvRun "echo %cd%";
     EvPrint ("执行结果:" +:+ Str.nl +:+ " C:\Users");
     EvPrint "再见！"].
Proof. vm_compute. reflexivity. Qed.

(** The scenario of the specification for a program that is neither on the
    search path nor in the registry: the request ends with a success message
    after the registry error text has been launched; the executor is not
    run on the result of [open_program]. *)
Example request_open_unknown_program :
  trace (main Samples.sample_loads "" ["open notepad"] Samples.bare_host)
  = [EvPrint "欢迎使用智能助手！输入您的请求，或输入 'exit' 退出程序。";
     EvPrint (Str.nl +:+ "正在查询模型...");
     EvModel (Str.nl +:+ "用户请求: open notepad");
     EvPrint ("模型输出: " +:+ Samples.open_notepad_payload);
     EvWhich "notepad";
     EvRegistry "SOFTWARE\Microsoft\Windows\CurrentVersion\App Paths\Notepad";
     EvPrint "Path for Notepad: Error: Notepad not found in the registry.";
     EvPopen (Str.dquote +:+ "Error: Notepad not found in the registry."
              +:+ Str.dquote);
     EvPrint "生成的命令: Program 'Notepad' opened successfully.";
     EvPrint ("执行结果:" +:+ Str.nl +:+ " Program 'Notepad' opened successfully.")].
Proof. vm_compute. reflexivity. Qed.

(** An answer with a stray closing brace: the extracted text is not the
    payload, the deserializer rejects it and nothing is dispatched. *)
Example request_noisy_answer :
  trace (main Samples.sample_loads "" ["where am I?"] Samples.posix_host)
  = [EvPrint "欢迎使用智能助手！输入您的请求，或输入 'exit' 退出程序。";
     EvPrint (Str.nl +:+ "正在查询模型...");
     EvModel (Str.nl +:+ "用户请求: where am I?");
     EvPrint ("模型输出: " +:+ Samples.show_path_payload +:+ " (done :}");
     EvPrint "Error: Invalid JSON output from model."].
Proof. vm_compute. reflexivity. Qed.

(** * Further properties of the resolver and of [open_program] *)

(** X1. The resolver always starts with one search-path query, and it
    consults the registry exactly when that query gave nothing. *)
Theorem registry_queried_iff_search_misses (h : Host) (program_name : string) :
  (existsb is_registry (trace (resolve program_name h)) = true
   <-> value (find_program_path program_name h) = None)
  /\ (trace (resolve program_name h) = [EvWhich (Str.lower program_name)]
      \/ trace (resolve program_name h)
         = [EvWhich (Str.lower program_name); EvRegistry (key_path_of program_name)]).
Proof.
  destruct (resolve_trace_cases h program_name) as [(p & Hf & Ht) | (Hf & Ht)];
    rewrite Ht, Hf.
  - split; [|left; reflexivity]. split; discriminate.
  - split; [|right; reflexivity]. split; reflexivity.
Qed.

Lemma office_programs_keys_lower (k exe : string) :
  office_programs !! k = Some exe -> Str.lower k = k.
Proof.
  intros H. apply elem_of_list_to_map_2 in H.
  repeat (apply elem_of_cons in H as [H | H]; [injection H as -> ->; reflexivity|]).
  apply elem_of_nil in H. destruct H.
Qed.

(** X2. Every friendly name of the table is found under any letter case:
    the registry key is the one of the executable that the table gives. *)
Theorem friendly_name_any_casing (k exe program_name : string) :
  office_programs !! k = Some exe ->
  Str.lower program_name = Str.lower k ->
  executable_name_of program_name = exe
  /\ key_path_of program_name = app_paths +:+ exe.
Proof.
  intros Hk Hl. rewrite (office_programs_keys_lower k exe Hk) in Hl.
  assert (He : executable_name_of program_name = exe).
  { unfold executable_name_of, dict_get. rewrite Hl, Hk. reflexivity. }
  split; [exact He|]. unfold key_path_of. rewrite He. reflexivity.
Qed.

Lemma friendly_name_any_casing_witness :
  (executable_name_of "PowerPoint" = "POWERPNT.EXE"
   /\ key_path_of "PowerPoint" = app_paths +:+ "POWERPNT.EXE")
  /\ (executable_name_of ("OUTLOO" +:+ Unicode.encode 8490) = "OUTLOOK.EXE"
      /\ key_path_of ("OUTLOO" +:+ Unicode.encode 8490)
         = app_paths +:+ "OUTLOOK.EXE").
Proof.
  split.
  - apply (friendly_name_any_casing "powerpoint" "POWERPNT.EXE" "PowerPoint");
      vm_compute; reflexivity.
  - apply (friendly_name_any_casing "outlook" "OUTLOOK.EXE"
             ("OUTLOO" +:+ Unicode.encode 8490)); vm_compute; reflexivity.
Defined.

(** A name that is not a friendly name is looked up in the registry
    under its own spelling, letter case included. *)
Theorem other_names_keep_their_spelling (h : Host) (program_name : string) :
  office_programs !! Str.lower program_name = None ->
  trace (find_office_path program_name h)
    = [EvRegistry (app_paths +:+ program_name)].
Proof.
  intros H. rewrite find_office_path_trace. unfold key_path_of, executable_name_of, dict_get.
  rewrite H. reflexivity.
Qed.

Lemma other_names_keep_their_spelling_witness :
  trace (find_office_path "Chrome.EXE" Samples.office_host)
    = [EvRegistry (app_paths +:+ "Chrome.EXE")].
Proof.
  apply (other_names_keep_their_spelling Samples.office_host "Chrome.EXE").
  vm_compute. reflexivity.
Defined.

(** X3. When the search path misses and the registry holds a non-empty
    install path, [open_program] prints the path.  If the print is written,
    the path is started between double quotes, with nothing else; success is
    reported when the start does not raise, and any exception of the start,
    "file not found" included, is reported as "Error while opening program".
    If the print raises, that exception is reported in the same way and the
    path is not started. *)
Theorem registry_hit_is_launched (h : Host) (program_name p : string) :
  value (find_program_path program_name h) = None ->
  winreg_query h (key_path_of program_name) = RegValue p ->
  p <> "" ->
  match builtin_print h ("Path for " +:+ program_name +:+ ": " +:+ p) with
  | Printed =>
      trace (open_program program_name h)
      = [EvWhich (Str.lower program_name);
         EvRegistry (key_path_of program_name);
         EvPrint ("Path for " +:+ program_name +:+ ": " +:+ p);
         EvPopen (Str.dquote +:+ p +:+ Str.dquote)]
      /\ value (open_program program_name h)
         = match subprocess_Popen h (Str.dquote +:+ p +:+ Str.dquote) with
           | Started => "Program '" +:+ program_name +:+ "' opened successfully."
           | StartFileNotFound e | StartRaised e =>
               "Error while opening program: " +:+ e
           end
  | PrintRaised e =>
      trace (open_program program_name h)
      = [EvWhich (Str.lower program_name);
         EvRegistry (key_path_of program_name);
         EvPrint ("Path for " +:+ program_name +:+ ": " +:+ p)]
      /\ value (open_program program_name h)
         = "Error while opening program: " +:+ e
  end.
Proof.
  intros Hmiss Hreg Hp. apply truthy_nonempty in Hp.
  unfold open_program, bind. rewrite (resolve_after_miss h program_name Hmiss).
  unfold find_office_path. run_eff. rewrite Hreg. simpl. rewrite Hp.
  destruct (builtin_print h _); [|split; reflexivity].
  destruct (subprocess_Popen h _); split; reflexivity.
Qed.

Lemma registry_hit_is_launched_witness :
  trace (open_program "Word" Samples.office_host)
    = [EvWhich "word";
       EvRegistry "SOFTWARE\Microsoft\Windows\CurrentVersion\App Paths\WINWORD.EXE";
       EvPrint "Path for Word: C:\Office\WINWORD.EXE";
       EvPopen (Str.dquote +:+ "C:\Office\WINWORD.EXE" +:+ Str.dquote)]
  /\ value (open_program "Word" Samples.office_host)
     = "Program 'Word' opened successfully.".
Proof.
  assert (Hmiss : value (find_program_path "Word" Samples.office_host) = None)
    by (vm_compute; reflexivity).
  assert (Hreg : winreg_query Samples.office_host (key_path_of "Word")
                 = RegValue "C:\Office\WINWORD.EXE")
    by (vm_compute; reflexivity).
  assert (Hp : "C:\Office\WINWORD.EXE" <> "") by discriminate.
  pose proof (registry_hit_is_launched Samples.office_host "Word"
                "C:\Office\WINWORD.EXE" Hmiss Hreg Hp) as H.
  vm_compute in H. vm_compute. exact H.
Defined.

Lemma opened_not_marked (program_name : string) :
  Str.startswith "Error" (opened program_name) = false.
Proof. reflexivity. Qed.

Lemma not_found_marked (program_name : string) :
  Str.startswith "Error" (not_found program_name) = true.
Proof. reflexivity. Qed.

(** X4. [open_program] returns either the success message, which does not
    carry the error marker, or another text, which starts with the marker:
    the two kinds of result cannot be confused. *)
Theorem open_program_result_shape (h : Host) (program_name : string) :
  (value (open_program program_name h) = opened program_name
   /\ Str.startswith "Error" (value (open_program program_name h)) = false)
  \/ (value (open_program program_name h) <> opened program_name
      /\ Str.startswith "Error" (value (open_program program_name h)) = true).
Proof.
  unfold open_program, bind.
  destruct (resolve program_name h) as [path t].
  destruct (Str.truthy path); run_eff.
  - destruct (builtin_print h _) as [|e']; simpl;
      [destruct (subprocess_Popen h _) as [|e|e]; simpl|];
      try (left; split; reflexivity);
      right; (split; [|reflexivity]);
      intros H; apply (f_equal (Str.startswith "Error")) in H; discriminate H.
  - destruct (subprocess_Popen h program_name) as [|e|e]; simpl;
      [destruct (os_startfile h program_name) as [|e|e]; simpl|..];
      try (left; split; reflexivity);
      right; (split; [|reflexivity]);
      intros H; apply (f_equal (Str.startswith "Error")) in H; discriminate H.
Qed.

(** X5. The message "Program ... not found" can only come from the
    fall-back branch: it is returned only when the search path missed and the
    registry held an empty install path. *)
Theorem not_found_only_from_fallback (h : Host) (program_name : string) :
  value (open_program program_name h) = not_found program_name ->
  value (find_program_path program_name h) = None
  /\ winreg_query h (key_path_of program_name) = RegValue "".
Proof.
  intros H. apply resolve_falsy_only_for_empty_value.
  revert H. unfold open_program, bind.
  destruct (resolve program_name h) as [path t].
  unfold value at 2; simpl.
  destruct (Str.truthy path); [|reflexivity]. run_eff.
  destruct (builtin_print h _) as [|e']; simpl;
    [destruct (subprocess_Popen h _) as [|e|e]; simpl|]; intros H; exfalso.
  - apply (f_equal (Str.startswith "Error")) in H. discriminate H.
  - apply (f_equal (Str.startswith "Error:")) in H. discriminate H.
  - apply (f_equal (Str.startswith "Error:")) in H. discriminate H.
  - apply (f_equal (Str.startswith "Error:")) in H. discriminate H.
Qed.

Lemma not_found_only_from_fallback_witness :
  value (find_program_path "Notepad" Samples.unlaunchable_host) = None
  /\ winreg_query Samples.unlaunchable_host (key_path_of "Notepad") = RegValue "".
Proof.
  apply (not_found_only_from_fallback Samples.unlaunchable_host "Notepad").
  reflexivity.
Defined.

(** X6. In the fall-back branch the two launch calls are not alternatives:
    when [Popen] on the raw name does not raise, [os.startfile] is called on
    the same name as well, and its outcome alone decides the result. *)
Theorem fallback_launches_twice (h : Host) (program_name : string) :
  value (find_program_path program_name h) = None ->
  winreg_query h (key_path_of program_name) = RegValue "" ->
  subprocess_Popen h program_name = Started ->
  trace (open_program program_name h)
    = [EvWhich (Str.lower program_name);
       EvRegistry (key_path_of program_name);
       EvPopen program_name;
       EvStartfile program_name]
  /\ value (open_program program_name h)
     = match os_startfile h program_name with
       | Started => opened program_name
       | StartFileNotFound _ => not_found program_name
       | StartRaised e => "Error while opening program: " +:+ e
       end.
Proof.
  intros Hmiss Hreg Hpopen.
  unfold open_program, bind. rewrite (resolve_after_miss h program_name Hmiss).
  unfold find_office_path. run_eff. rewrite Hreg. simpl. rewrite Hpopen.
  destruct (os_startfile h program_name); split; reflexivity.
Qed.

Lemma fallback_launches_twice_witness :
  trace (open_program "report.docx" Samples.blank_registry_host)
    = [EvWhich (Str.lower "report.docx");
       EvRegistry (key_path_of "report.docx");
       EvPopen "report.docx";
       EvStartfile "report.docx"]
  /\ value (open_program "report.docx" Samples.blank_registry_host)
     = match os_startfile Samples.blank_registry_host "report.docx" with
       | Started => opened "report.docx"
       | StartFileNotFound _ => not_found "report.docx"
       | StartRaised e => "Error while opening program: " +:+ e
       end.
Proof.
  apply (fallback_launches_twice Samples.blank_registry_host "report.docx");
    reflexivity.
Defined.

(** * Further properties of the dispatcher and of the executor *)

Lemma open_program_events (h : Host) (program_name : string) :
  forallb dispatch_event (trace (open_program program_name h)) = true.
Proof.
  pose proof (resolve_trace_cases h program_name) as Hc.
  unfold open_program, bind.
  destruct (resolve program_name h) as [path t]. unfold trace in Hc; simpl in Hc.
  assert (Ht : forallb dispatch_event t = true).
  { destruct Hc as [(p & _ & ->) | (_ & ->)]; reflexivity. }
  destruct (Str.truthy path); run_eff.
  - destruct (builtin_print h _); simpl;
      [destruct (subprocess_Popen h _); simpl|];
      rewrite forallb_app, Ht; reflexivity.
  - destruct (subprocess_Popen h program_name); simpl;
      [destruct (os_startfile h program_name); simpl|..];
      rewrite forallb_app, Ht; reflexivity.
Qed.

(** X7. The dispatcher never runs the command interpreter and never calls
    the model: every event of a run of [construct_command] is a resolver
    query, a [print] or a launch call. *)
Theorem dispatcher_events
    (h : Host) (action : string) (details : gmap string string) :
  forallb dispatch_event (trace (construct_command action details h)) = true.
Proof.
  unfold construct_command.
  destruct (String.eqb action "open_program").
  - destruct (negb (Str.truthy (dict_get details "program" ""))); [reflexivity|].
    apply open_program_events.
  - destruct (String.eqb action "list_directory"); [reflexivity|].
    destruct (String.eqb action "show_path"); reflexivity.
Qed.

(** The dispatcher reads the fields [program] and [path] of the intent
    and nothing else: two intents that agree on these two fields are
    dispatched in the same way. *)
Theorem dispatcher_reads_two_fields
    (h : Host) (action : string) (details details' : gmap string string) :
  details !! "program" = details' !! "program" ->
  details !! "path" = details' !! "path" ->
  construct_command action details h = construct_command action details' h.
Proof.
  intros Hprog Hpath. unfold construct_command, dict_get.
  rewrite Hprog, Hpath. reflexivity.
Qed.

Lemma dispatcher_reads_two_fields_witness :
  construct_command "list_directory"
    (<["action" := "list_directory"]> {["path" := "C:\Users"]}) Samples.office_host
  = construct_command "list_directory" {["path" := "C:\Users"]} Samples.office_host.
Proof.
  apply (dispatcher_reads_two_fields Samples.office_host "list_directory"
           (<["action" := "list_directory"]> {["path" := "C:\Users"]})
           {["path" := "C:\Users"]}).
  - vm_compute. reflexivity.
  - vm_compute. reflexivity.
Defined.

Lemma construct_command_unsupported
    (h : Host) (action : string) (details : gmap string string) :
  action <> "open_program" -> action <> "list_directory" -> action <> "show_path" ->
  construct_command action details h = ("Error: Unsupported action.", []).
Proof.
  intros H1 H2 H3. unfold construct_command.
  apply String.eqb_neq in H1, H2, H3. rewrite H1, H2, H3. reflexivity.
Qed.

(** X8. Whatever happens to the command, the executor answers a failure
    with a text that starts with the error marker: a non-zero exit status
    and an exception of the run both give such a text, and the command is
    run at most once. *)
Theorem run_command_failure_is_marked (h : Host) (command : string) :
  match subprocess_run h command with
  | Completed returncode _ _ => returncode <> 0
  | RunRaised _ => True
  end ->
  Str.startswith "Error" (value (run_command command h)) = true
  /\ (trace (run_command command h) = []
      \/ trace (run_command command h) = [EvRun command]).
Proof.
  intros H. unfold run_command.
  destruct (Str.startswith "Error" command) eqn:Hm.
  - split; [exact Hm | left; reflexivity].
  - run_eff. destruct (subprocess_run h command) as [rc out err|e].
    + apply Z.eqb_neq in H. rewrite H. split; [reflexivity | right; reflexivity].
    + split; [reflexivity | right; reflexivity].
Qed.

Lemma run_command_failure_is_marked_witness :
  Str.startswith "Error" (value (run_command "dir Z:" Samples.blank_registry_host)) = true
  /\ (trace (run_command "dir Z:" Samples.blank_registry_host) = []
      \/ trace (run_command "dir Z:" Samples.blank_registry_host) = [EvRun "dir Z:"]).
Proof.
  apply (run_command_failure_is_marked Samples.blank_registry_host "dir Z:").
  exact I.
Defined.

(** * Further properties of the parser *)

Lemma append_nil_r (s : string) : s +:+ "" = s.
Proof.
  induction s as [|c s IH]; [reflexivity|]. rewrite app_cons, IH. reflexivity.
Qed.

Lemma contains_nil (sub : string) :
  Str.contains sub "" = String.prefix sub "".
Proof. simpl. destruct sub; reflexivity. Qed.

Lemma contains_step (sub : string) (c : ascii) (s : string) :
  Str.contains sub (String c s)
  = if String.prefix sub (String c s) then true else Str.contains sub s.
Proof. reflexivity. Qed.

Lemma contains_of_startswith (p s : string) :
  Str.startswith p s = true -> Str.contains p s = true.
Proof.
  unfold Str.startswith. intros H. destruct s as [|c s].
  - rewrite contains_nil. exact H.
  - rewrite contains_step, H. reflexivity.
Qed.

Lemma contains_cons (sub : string) (c : ascii) (s : string) :
  Str.contains sub s = true -> Str.contains sub (String c s) = true.
Proof.
  intros H. rewrite contains_step, H.
  destruct (String.prefix sub (String c s)); reflexivity.
Qed.

Lemma contains_app_l (sub a s : string) :
  Str.contains sub s = true -> Str.contains sub (a +:+ s) = true.
Proof.
  intros H. induction a as [|c a IH]; [exact H|].
  rewrite app_cons. apply contains_cons, IH.
Qed.

Lemma prefix_app_r (p s b : string) :
  String.prefix p s = true -> String.prefix p (s +:+ b) = true.
Proof.
  revert s. induction p as [|c p IH]; intros s H;
    [destruct (s +:+ b); reflexivity|].
  destruct s as [|d s]; [discriminate H|].
  rewrite app_cons. simpl in *.
  destruct (ascii_dec c d); [apply IH, H | discriminate H].
Qed.

Lemma contains_app_r (sub s b : string) :
  Str.contains sub s = true -> Str.contains sub (s +:+ b) = true.
Proof.
  induction s as [|c s IH]; intros H.
  - apply contains_of_startswith. apply (prefix_app_r sub "" b).
    rewrite contains_nil in H. exact H.
  - rewrite contains_step in H. destruct (String.prefix sub (String c s)) eqn:Hp.
    + apply contains_of_startswith, prefix_app_r, Hp.
    + rewrite app_cons. apply contains_cons, IH, H.
Qed.

Lemma extract_json_payload (b : string) :
  extract_json ("{" +:+ b +:+ "}") = "{" +:+ b +:+ "}".
Proof.
  unfold extract_json. rewrite search_braces_strip.
  pose proof (search_braces_found "" b "" eq_refl eq_refl) as H.
  rewrite app_nil in H. rewrite (append_nil_r "}") in H. rewrite H. reflexivity.
Qed.

Lemma extract_json_cases (stdout : string) :
  extract_json stdout = no_json
  \/ exists b, extract_json stdout = "{" +:+ b +:+ "}".
Proof.
  unfold extract_json.
  destruct (Re.search_braces (Str.strip stdout)) as [m|] eqn:Hm; [|left; reflexivity].
  destruct (search_braces_split _ m Hm) as (a & b & c & _ & -> & _).
  right. exists b. reflexivity.
Qed.

(** X9. Extraction is idempotent: what has been extracted from an answer
    is extracted unchanged from itself, be it the payload or the "no valid
    JSON" diagnostic. *)
Theorem extract_json_idempotent (stdout : string) :
  extract_json (extract_json stdout) = extract_json stdout.
Proof.
  destruct (extract_json_cases stdout) as [-> | [b ->]].
  - vm_compute. reflexivity.
  - apply extract_json_payload.
Qed.

(** X10. What [query_model] returns either holds the error marker or is a
    text that starts with an opening brace and ends with a closing brace;
    the model is called once, with the prompt. *)
Theorem query_model_output_shape (h : Host) (prompt : string) :
  (Str.contains "Error" (value (query_model prompt h)) = true
   \/ exists b, value (query_model prompt h) = "{" +:+ b +:+ "}")
  /\ trace (query_model prompt h) = [EvModel prompt].
Proof.
  unfold query_model. run_eff.
  destruct (ollama_run h prompt) as [rc out err|e]; [destruct (rc =? 0)|]; simpl.
  - split; [|reflexivity].
    destruct (extract_json_cases out) as [-> | [b ->]]; [left; reflexivity|].
    right. exists b. reflexivity.
  - split; [left|]; reflexivity.
  - split; [left|]; reflexivity.
Qed.

(** * Further properties of the main loop *)

Section MainProperties.

Variable json_loads : string -> option (gmap string string).
Variable system_prompt : string.

(** The run of the body on an answer that deserializes to an intent with
    an action: dispatch, then execution unless the action is
    [open_program]. *)
Lemma main_body_dispatch_run
    (h : Host) (out action : string) (data : gmap string string) :
  Str.contains "Error" out = false ->
  json_loads out = Some data ->
  data !! "action" = Some action ->
  Str.truthy action = true ->
  trace (main_body json_loads out h)
  = EvPrint ("模型输出: " +:+ out)
      :: trace (construct_command action data h)
      ++ EvPrint ("生成的命令: " +:+ value (construct_command action data h))
      :: (if String.eqb action "open_program" then
            [EvPrint ("执行结果:" +:+ Str.nl +:+ " "
                      +:+ value (construct_command action data h))]
          else
            trace (run_command (value (construct_command action data h)) h)
            ++ [EvPrint ("执行结果:" +:+ Str.nl +:+ " "
                         +:+ value (run_command
                                      (value (construct_command action data h)) h))]).
Proof.
  intros He Hl Ha Ht. unfold main_body, bind. run_eff.
  rewrite He, Hl, Ha, Ht. simpl.
  destruct (construct_command action data h) as [command t]. simpl.
  destruct (String.eqb action "open_program"); simpl.
  - reflexivity.
  - destruct (run_command command h) as [result t']. simpl. reflexivity.
Qed.

(** The run of the body when nothing is dispatched. *)
Lemma main_body_quiet_run (h : Host) (out : string) :
  Str.contains "Error" out = true
  \/ json_loads out = None
  \/ (exists data, json_loads out = Some data
                   /\ (data !! "action" = None \/ data !! "action" = Some "")) ->
  exists message,
    trace (main_body json_loads out h)
    = [EvPrint ("模型输出: " +:+ out); EvPrint message].
Proof.
  intros H. unfold main_body, bind. run_eff.
  destruct (Str.contains "Error" out) eqn:He; [eexists; reflexivity|].
  destruct H as [H | [H | (data & Hl & Ha)]]; [discriminate H | |].
  - rewrite H. eexists; reflexivity.
  - rewrite Hl. destruct Ha as [-> | ->]; eexists; reflexivity.
Qed.

Lemma run_command_trace_cases (h : Host) (command : string) :
  (Str.startswith "Error" command = true /\ run_command command h = (command, []))
  \/ (Str.startswith "Error" command = false
      /\ trace (run_command command h) = [EvRun command]).
Proof.
  unfold run_command. destruct (Str.startswith "Error" command); [left; split; reflexivity|].
  right. split; [reflexivity|]. run_eff.
  destruct (subprocess_run h command) as [rc out err|e]; [destruct (rc =? 0)|];
    reflexivity.
Qed.

Lemma action_cases (action : string) :
  action = "open_program" \/ action = "list_directory" \/ action = "show_path"
  \/ (action <> "open_program" /\ action <> "list_directory" /\ action <> "show_path").
Proof.
  destruct (String.eqb_spec action "open_program") as [-> | H1]; [auto|].
  destruct (String.eqb_spec action "list_directory") as [-> | H2]; [auto|].
  destruct (String.eqb_spec action "show_path") as [-> | H3]; [auto|].
  right; right; right. auto.
Qed.

(** X12. A request starts a process only when the answer of the model is
    free of the error marker and deserializes to an intent whose action is
    [list_directory], [show_path], or [open_program] with a non-empty
    program; in every other case the request only prints. *)
Theorem process_started_only_for_intent (h : Host) (out : string) :
  existsb starts_process (trace (main_body json_loads out h)) = true ->
  Str.contains "Error" out = false
  /\ exists data action,
       json_loads out = Some data /\ data !! "action" = Some action
       /\ ((action = "open_program" /\ dict_get data "program" "" <> "")
           \/ action = "list_directory" \/ action = "show_path").
Proof.
  intros H.
  destruct (Str.contains "Error" out) eqn:He.
  { destruct (main_body_quiet_run h out (or_introl He)) as [m Hm].
    rewrite Hm in H. discriminate H. }
  split; [reflexivity|].
  destruct (json_loads out) as [data|] eqn:Hl.
  2:{ destruct (main_body_quiet_run h out (or_intror (or_introl Hl))) as [m Hm].
      rewrite Hm in H. discriminate H. }
  destruct (data !! "action") as [action|] eqn:Ha.
  2:{ destruct (main_body_quiet_run h out) as [m Hm]; [|rewrite Hm in H; discriminate H].
      right; right. exists data. split; [exact Hl | left; exact Ha]. }
  destruct (Str.truthy action) eqn:Ht.
  2:{ destruct action; [|discriminate Ht].
      destruct (main_body_quiet_run h out) as [m Hm]; [|rewrite Hm in H; discriminate H].
      right; right. exists data. split; [exact Hl | right; exact Ha]. }
  exists data, action. split; [reflexivity|]. split; [exact Ha|].
  rewrite (main_body_dispatch_run h out action data He Hl Ha Ht) in H.
  destruct (action_cases action) as [-> | [-> | [-> | (H1 & H2 & H3)]]]; auto.
  - left. split; [reflexivity|]. intros Hp. revert H.
    unfold construct_command. simpl. rewrite Hp. simpl. discriminate.
  - exfalso. revert H.
    rewrite (construct_command_unsupported h action data H1 H2 H3).
    apply String.eqb_neq in H1. rewrite H1. simpl. discriminate.
Qed.

Lemma main_body_open_program_events
    (h : Host) (out : string) (data : gmap string string) :
  json_loads out = Some data ->
  data !! "action" = Some "open_program" ->
  forallb dispatch_event (trace (main_body json_loads out h)) = true.
Proof.
  intros Hl Ha.
  destruct (Str.contains "Error" out) eqn:He.
  { destruct (main_body_quiet_run h out (or_introl He)) as [m ->]. reflexivity. }
  rewrite (main_body_dispatch_run h out "open_program" data He Hl Ha eq_refl).
  simpl. rewrite forallb_app. simpl. rewrite Bool.andb_true_r.
  unfold construct_command. simpl.
  destruct (negb (Str.truthy (dict_get data "program" ""))); [reflexivity|].
  apply open_program_events.
Qed.
(** X13. The result of an [open_program] intent is never handed to the
    executor: a request for [open_program] causes resolver queries, prints
    and launch calls only, and the command interpreter is not run. *)
Theorem open_program_request_skips_executor
    (h : Host) (out : string) (data : gmap string string) :
  json_loads out = Some data ->
  data !! "action" = Some "open_program" ->
  forallb dispatch_event (trace (main_body json_loads out h)) = true
  /\ existsb is_run (trace (main_body json_loads out h)) = false.
Proof.
  intros Hl Ha.
  pose proof (main_body_open_program_events h out data Hl Ha) as H.
  split; [exact H|].
  induction (trace (main_body json_loads out h)) as [|e t IH]; [reflexivity|].
  simpl in H. apply andb_true_iff in H as [He Ht].
  simpl. rewrite (IH Ht). destruct e; try reflexivity; discriminate He.
Qed.

(** X14. A [list_directory] intent makes the command interpreter run the
    listing command of the platform followed by the [path] field as it is,
    without quoting, and by a dot when the field is absent; the run is
    printed, executed once and its result printed. *)
Theorem list_directory_request
    (h : Host) (out : string) (data : gmap string string) :
  Str.contains "Error" out = false ->
  json_loads out = Some data ->
  data !! "action" = Some "list_directory" ->
  let command :=
    (if Str.startswith "win" (sys_platform h) then "dir " else "ls ")
    +:+ match data !! "path" with Some path => path | None => "." end in
  trace (main_body json_loads out h)
  = [EvPrint ("模型输出: " +:+ out);
     EvPrint ("生成的命令: " +:+ command);
     EvRun command;
     EvPrint ("执行结果:" +:+ Str.nl +:+ " " +:+ value (run_command command h))].
Proof.
  intros He Hl Ha command.
  rewrite (main_body_dispatch_run h out "list_directory" data He Hl Ha eq_refl).
  assert (Hc : construct_command "list_directory" data h = (command, [])).
  { unfold construct_command, command, dict_get. simpl. run_eff.
    destruct (Str.startswith "win" (sys_platform h)); reflexivity. }
  rewrite Hc. unfold value at 1 2 3, trace at 1. simpl.
  destruct (run_command_trace_cases h command) as [[Hm _] | [_ Ht]].
  - exfalso. revert Hm. unfold command, Str.startswith.
    destruct (String.prefix "win" (sys_platform h)); discriminate.
  - rewrite Ht. reflexivity.
Qed.

(** X15. An answer whose payload holds the error marker anywhere, for
    instance inside the name of the program to open, is never deserialized:
    the request prints the payload and stops. *)
Theorem payload_with_marker_is_dropped (h : Host) (pre body post : string) :
  Str.has_char Re.lbrace pre = false ->
  Str.has_char Re.rbrace post = false ->
  Str.contains "Error" body = true ->
  main_body json_loads (extract_json (pre +:+ "{" +:+ body +:+ "}" +:+ post)) h
  = (tt, [EvPrint ("模型输出: " +:+ "{" +:+ body +:+ "}");
          EvPrint ("{" +:+ body +:+ "}")]).
Proof.
  intros Hpre Hpost Hb.
  assert (Hx : extract_json (pre +:+ "{" +:+ body +:+ "}" +:+ post)
               = "{" +:+ body +:+ "}").
  { unfold extract_json. rewrite search_braces_strip.
    rewrite (search_braces_found pre body post Hpre Hpost). reflexivity. }
  rewrite Hx.
  assert (Hc : Str.contains "Error" ("{" +:+ body +:+ "}") = true).
  { apply (contains_app_l "Error" "{"), contains_app_r, Hb. }
  unfold main_body, bind. rewrite Hc. reflexivity.
Qed.

(** The run of one request. *)
Lemma main_request_exit (h : Host) (line : string) :
  is_exit_word line = true ->
  main_request json_loads system_prompt line h = (false, [EvPrint "再见！"]).
Proof.
  unfold is_exit_word, main_request. cbv zeta. intros ->. reflexivity.
Qed.

Lemma main_request_query (h : Host) (line : string) :
  is_exit_word line = false ->
  let prompt := system_prompt +:+ Str.nl +:+ "用户请求: " +:+ Str.strip line in
  main_request json_loads system_prompt line h
  = (true,
     EvPrint (Str.nl +:+ "正在查询模型...")
       :: EvModel prompt
       :: trace (main_body json_loads (value (query_model prompt h)) h)).
Proof.
  unfold is_exit_word, main_request. cbv zeta. intros ->.
  unfold bind. run_eff.
  destruct (query_model _ h) as [out t] eqn:Hq.
  assert (Ht : t = [EvModel (system_prompt +:+ Str.nl +:+ "用户请求: " +:+ Str.strip line)]).
  { revert Hq. unfold query_model. run_eff.
    destruct (ollama_run h _) as [rc o e|e]; [destruct (rc =? 0)|];
      intros [= _ <-]; reflexivity. }
  subst t. simpl.
  destruct (main_body json_loads out h) as [[] t']. simpl.
  rewrite app_nil_r. reflexivity.
Qed.

(** X16. A failure of the model service does not end the loop and
    dispatches nothing: the request prints the failure text, which starts
    with the error marker, and the loop goes on. *)
Theorem model_failure_is_reported (h : Host) (line : string) :
  is_exit_word line = false ->
  let prompt := system_prompt +:+ Str.nl +:+ "用户请求: " +:+ Str.strip line in
  match ollama_run h prompt with
  | Completed returncode _ _ => returncode <> 0
  | RunRaised _ => True
  end ->
  let message :=
    match ollama_run h prompt with
    | Completed _ _ stderr => "Error from model: " +:+ stderr
    | RunRaised e => "Error while querying model: " +:+ e
    end in
  main_request json_loads system_prompt line h
  = (true,
     [EvPrint (Str.nl +:+ "正在查询模型...");
      EvModel prompt;
      EvPrint ("模型输出: " +:+ message);
      EvPrint message]).
Proof.
  intros Hx prompt Hf message.
  rewrite (main_request_query h line Hx). fold prompt.
  assert (Hq : value (query_model prompt h) = message).
  { unfold query_model, message. run_eff.
    destruct (ollama_run h prompt) as [rc o e|e]; [|reflexivity].
    apply Z.eqb_neq in Hf. rewrite Hf. reflexivity. }
  rewrite Hq.
  assert (Hc : Str.contains "Error" message = true).
  { unfold message. destruct (ollama_run h prompt); reflexivity. }
  unfold main_body, bind. run_eff. rewrite Hc. reflexivity.
Qed.

(** The loop ends on a line exactly when the line, stripped and
    lower-cased, is [exit] or [quit]; such a line only prints the farewell,
    and the model is not called. *)
Theorem exit_word_ends_request (h : Host) (line : string) :
  (value (main_request json_loads system_prompt line h) = false
   <-> Str.lower (Str.strip line) = "exit" \/ Str.lower (Str.strip line) = "quit")
  /\ (value (main_request json_loads system_prompt line h) = false ->
      trace (main_request json_loads system_prompt line h) = [EvPrint "再见！"]).
Proof.
  assert (Hw : is_exit_word line = true
               <-> Str.lower (Str.strip line) = "exit"
                   \/ Str.lower (Str.strip line) = "quit").
  { unfold is_exit_word. cbv zeta. rewrite orb_true_iff, !String.eqb_eq. reflexivity. }
  destruct (is_exit_word line) eqn:Hx.
  - rewrite (main_request_exit h line Hx). split; [|reflexivity].
    split; [intros _; apply Hw; reflexivity | reflexivity].
  - rewrite (main_request_query h line Hx). split; [|discriminate].
    split; [discriminate|]. intros H. apply Hw in H. discriminate H.
Qed.

Lemma main_loop_step (h : Host) (line : string) (lines : list string) :
  main_loop json_loads system_prompt (line :: lines) h
  = if is_exit_word line then (tt, [EvPrint "再见！"])
    else (value (main_loop json_loads system_prompt lines h),
          trace (main_request json_loads system_prompt line h)
          ++ trace (main_loop json_loads system_prompt lines h)).
Proof.
  simpl. unfold bind.
  destruct (is_exit_word line) eqn:Hx.
  - rewrite (main_request_exit h line Hx). reflexivity.
  - rewrite (main_request_query h line Hx).
    destruct (main_loop json_loads system_prompt lines h) as [[] t]. reflexivity.
Qed.

(** X18. Lines typed after the first [exit] or [quit] are never read: the
    run of the loop is the same whatever follows that line. *)
Theorem lines_after_exit_are_ignored
    (h : Host) (before : list string) (line : string) (after : list string) :
  is_exit_word line = true ->
  main_loop json_loads system_prompt (before ++ line :: after) h
  = main_loop json_loads system_prompt (before ++ [line]) h.
Proof.
  intros Hx. induction before as [|l before IH].
  - rewrite !app_nil_l, !main_loop_step, Hx. reflexivity.
  - rewrite <- !app_comm_cons, !main_loop_step, IH. reflexivity.
Qed.
Lemma filter_model_dispatch (t : list Event) :
  forallb dispatch_event t = true -> List.filter is_model t = [].
Proof.
  induction t as [|e t IH]; [reflexivity|]. simpl.
  intros H. apply andb_true_iff in H as [He Ht].
  rewrite (IH Ht). destruct e; try reflexivity; discriminate He.
Qed.

Lemma construct_command_no_model
    (h : Host) (action : string) (details : gmap string string) :
  List.filter is_model (trace (construct_command action details h)) = [].
Proof.
  apply filter_model_dispatch. unfold construct_command.
  destruct (String.eqb action "open_program").
  - destruct (negb (Str.truthy (dict_get details "program" ""))); [reflexivity|].
    apply open_program_events.
  - destruct (String.eqb action "list_directory"); [reflexivity|].
    destruct (String.eqb action "show_path"); reflexivity.
Qed.

Lemma run_command_no_model (h : Host) (command : string) :
  List.filter is_model (trace (run_command command h)) = [].
Proof.
  destruct (run_command_trace_cases h command) as [[_ ->] | [_ ->]]; reflexivity.
Qed.

Lemma main_body_no_model (h : Host) (out : string) :
  List.filter is_model (trace (main_body json_loads out h)) = [].
Proof.
  destruct (Str.contains "Error" out) eqn:He.
  { destruct (main_body_quiet_run h out (or_introl He)) as [m ->]. reflexivity. }
  destruct (json_loads out) as [data|] eqn:Hl.
  2:{ destruct (main_body_quiet_run h out (or_intror (or_introl Hl))) as [m ->].
      reflexivity. }
  destruct (data !! "action") as [action|] eqn:Ha.
  2:{ destruct (main_body_quiet_run h out) as [m ->]; [|reflexivity].
      right; right. exists data. split; [exact Hl | left; exact Ha]. }
  destruct (Str.truthy action) eqn:Ht.
  2:{ destruct action; [|discriminate Ht].
      destruct (main_body_quiet_run h out) as [m ->]; [|reflexivity].
      right; right. exists data. split; [exact Hl | right; exact Ha]. }
  rewrite (main_body_dispatch_run h out action data He Hl Ha Ht).
  simpl. rewrite List.filter_app, construct_command_no_model. simpl.
  destruct (String.eqb action "open_program"); [reflexivity|].
  rewrite List.filter_app, run_command_no_model. reflexivity.
Qed.

Lemma model_queries_app (t1 t2 : list Event) :
  model_queries (t1 ++ t2) = (model_queries t1 + model_queries t2)%nat.
Proof. unfold model_queries. rewrite List.filter_app, length_app. reflexivity. Qed.

Lemma main_loop_model_queries (h : Host) (lines : list string) :
  model_queries (trace (main_loop json_loads system_prompt lines h))
  = requests_before_exit lines.
Proof.
  induction lines as [|line lines IH]; [reflexivity|].
  rewrite main_loop_step. simpl requests_before_exit.
  destruct (is_exit_word line) eqn:Hx; [reflexivity|].
  unfold trace at 1. simpl snd. rewrite model_queries_app, IH.
  rewrite (main_request_query h line Hx). unfold trace at 1. simpl snd.
  unfold model_queries. simpl. rewrite main_body_no_model. reflexivity.
Qed.

(** X19. The model is called once for every line typed before the first
    [exit] or [quit], and never otherwise: neither the dispatcher nor the
    executor calls it. *)
Theorem one_model_query_per_request (h : Host) (lines : list string) :
  model_queries (trace (main json_loads system_prompt lines h))
  = requests_before_exit lines.
Proof.
  unfold main, bind. run_eff.
  destruct (main_loop json_loads system_prompt lines h) as [[] t] eqn:Hm.
  simpl. change (model_queries t = requests_before_exit lines).
  rewrite <- (main_loop_model_queries h lines), Hm. reflexivity.
Qed.

End MainProperties.

(** ** The requests above, on the sample hosts *)

Lemma process_started_only_for_intent_witness :
  Str.contains "Error" Samples.show_path_payload = false
  /\ exists data action,
       Samples.sample_loads Samples.show_path_payload = Some data
       /\ data !! "action" = Some action
       /\ ((action = "open_program" /\ dict_get data "program" "" <> "")
           \/ action = "list_directory" \/ action = "show_path").
Proof.
  apply (process_started_only_for_intent Samples.sample_loads Samples.office_host
           Samples.show_path_payload).
  vm_compute. reflexivity.
Defined.

Lemma open_program_request_skips_executor_witness :
  forallb dispatch_event
    (trace (main_body Samples.sample_loads Samples.open_notepad_payload
              Samples.bare_host)) = true
  /\ existsb is_run
       (trace (main_body Samples.sample_loads Samples.open_notepad_payload
                 Samples.bare_host)) = false.
Proof.
  apply (open_program_request_skips_executor Samples.sample_loads Samples.bare_host
           Samples.open_notepad_payload
           (<["action" := "open_program"]> {["program" := "Notepad"]})).
  - vm_compute. reflexivity.
  - vm_compute. reflexivity.
Defined.

Lemma list_directory_request_witness :
  trace (main_body Samples.listing_loads Samples.listing_payload Samples.posix_host)
  = [EvPrint ("模型输出: " +:+ Samples.listing_payload);
     EvPrint ("生成的命令: " +:+ "ls /tmp");
     EvRun "ls /tmp";
     EvPrint ("执行结果:" +:+ Str.nl +:+ " "
              +:+ value (run_command "ls /tmp" Samples.posix_host))].
Proof.
  assert (He : Str.contains "Error" Samples.listing_payload = false)
    by (vm_compute; reflexivity).
  assert (Hl : Samples.listing_loads Samples.listing_payload
               = Some (<["action" := "list_directory"]> {["path" := "/tmp"]}))
    by (vm_compute; reflexivity).
  assert (Ha : (<["action" := "list_directory"]> {["path" := "/tmp"]}
                : gmap string string) !! "action" = Some "list_directory")
    by (vm_compute; reflexivity).
  pose proof (list_directory_request Samples.listing_loads Samples.posix_host
                Samples.listing_payload _ He Hl Ha) as H.
  vm_compute in H. vm_compute. exact H.
Defined.

Lemma payload_with_marker_is_dropped_witness :
  main_body Samples.sample_loads
    (extract_json ("Sure: " +:+ "{" +:+ Samples.error_lookup_body +:+ "}" +:+ " ok"))
    Samples.office_host
  = (tt, [EvPrint ("模型输出: " +:+ "{" +:+ Samples.error_lookup_body +:+ "}");
          EvPrint ("{" +:+ Samples.error_lookup_body +:+ "}")]).
Proof.
  apply (payload_with_marker_is_dropped Samples.sample_loads Samples.office_host
           "Sure: " Samples.error_lookup_body " ok").
  - reflexivity.
  - reflexivity.
  - vm_compute. reflexivity.
Defined.

Lemma model_failure_is_reported_witness :
  main_request Samples.sample_loads "" "open word" Samples.blank_registry_host
  = (true,
     [EvPrint (Str.nl +:+ "正在查询模型...");
      EvModel ("" +:+ Str.nl +:+ "用户请求: " +:+ Str.strip "open word");
      EvPrint ("模型输出: " +:+ "Error from model: " +:+ "model not found");
      EvPrint ("Error from model: " +:+ "model not found")]).
Proof.
  apply (model_failure_is_reported Samples.sample_loads "" Samples.blank_registry_host
           "open word").
  - vm_compute. reflexivity.
  - discriminate.
Defined.

Lemma exit_word_ends_request_witness :
  trace (main_request Samples.sample_loads "" "  QUIT " Samples.office_host)
  = [EvPrint "再见！"].
Proof.
  apply (exit_word_ends_request Samples.sample_loads "" Samples.office_host "  QUIT ").
  apply (exit_word_ends_request Samples.sample_loads "" Samples.office_host "  QUIT ").
  right. vm_compute. reflexivity.
Defined.

Lemma lines_after_exit_are_ignored_witness :
  main_loop Samples.sample_loads ""
    (["where am I?"] ++ "quit" :: ["open notepad"]) Samples.office_host
  = main_loop Samples.sample_loads "" (["where am I?"] ++ ["quit"]) Samples.office_host.
Proof.
  apply (lines_after_exit_are_ignored Samples.sample_loads "" Samples.office_host
           ["where am I?"] "quit" ["open notepad"]).
  vm_compute. reflexivity.
Defined.

(** X11. Extraction gives the "no valid JSON" diagnostic exactly for the
    answers in which no opening brace is followed by a closing brace; every
    other answer gives a text delimited by braces. *)
Theorem no_json_iff_no_braces (stdout : string) :
  extract_json stdout = no_json
  <-> forall a b c, stdout <> a +:+ "{" +:+ b +:+ "}" +:+ c.
Proof.
  split; [|apply extract_json_no_payload].
  intros H a b c ->. revert H. unfold extract_json.
  rewrite search_braces_strip.
  destruct (Re.search_braces (a +:+ "{" +:+ b +:+ "}" +:+ c)) as [m|] eqn:Hm.
  - destruct (search_braces_split _ m Hm) as (a' & b' & c' & _ & -> & _).
    intros H.
    pose proof (has_char_app Re.lbrace "" (b' +:+ "}")) as Hb.
    change ("" +:+ String Re.lbrace (b' +:+ "}")) with ("{" +:+ b' +:+ "}") in Hb.
    rewrite H in Hb. vm_compute in Hb. discriminate Hb.
  - destruct (search_braces_complete a b c Hm).
Qed.

(** ** Lines with white space beyond ASCII *)

(** [exit] behind an ideographic space and before a no-break space ends
    the loop: the later lines are not read and the model is never called. *)
Example exit_behind_wide_space :
  is_exit_word (Unicode.encode 12288 +:+ "Exit" +:+ Unicode.encode 160) = true
  /\ main_loop Samples.sample_loads ""
       [Unicode.encode 12288 +:+ "exit"; "where am I?"; "exit"] Samples.office_host
     = (tt, [EvPrint "再见！"])
  /\ requests_before_exit [Unicode.encode 12288 +:+ "exit"; "where am I?"; "exit"]
     = 0%nat.
Proof. repeat split; vm_compute; reflexivity. Qed.

(** The white space of [strip]: the ASCII one and the Unicode one go, a
    zero-width space stays. *)
Example strip_unicode_space :
  Str.strip (Unicode.encode 12288 +:+ " a b" +:+ Unicode.encode 8195 +:+ Str.nl)
  = "a b"
  /\ Str.strip (Unicode.encode 8203 +:+ "a ") = Unicode.encode 8203 +:+ "a".
Proof. split; vm_compute; reflexivity. Qed.
